(** * Verification of dalmatian's WorkspaceManager (src/dalmatian/wmanager.py)

    A shallow embedding of the three analysis paths of [WorkspaceManager]:
    - [get_entity_status]: latest submission status per entity;
    - [get_stats]: per-task runtime, preemption and cost statistics;
    - [patch_attributes]: recovery of missing output attributes.

    Python exceptions are modelled by the [result] type below; a remote
    call with a non-200 response fails the [assert r.status_code==200]
    that every wrapper of [firecloud.api] performs. *)

From Stdlib Require Import ZArith QArith Qminmax Ascii.
From stdpp Require Import base gmap strings list sorting.

(** ** Python exceptions and a small exception monad *)

Inductive py_exn :=
  | AssertionError
  | KeyError
  | IndexError
  | AttributeError
  | UnboundLocalError
  | ValueError
  | TypeError.

Inductive result (A : Type) : Type :=
  | Ok (a : A)
  | Raise (e : py_exn).
Arguments Ok {A} a.
Arguments Raise {A} e.

Definition res_bind {A B} (m : result A) (k : A -> result B) : result B :=
  match m with
  | Ok a => k a
  | Raise e => Raise e
  end.

Notation "x <- m ;; k" := (res_bind m (fun x => k))
  (at level 100, m at next level, right associativity).

(** [l[0]] *)
Definition py_head {A} (l : list A) : result A :=
  match l with x :: _ => Ok x | [] => Raise IndexError end.

(** [assert c] *)
Definition py_assert (c : bool) : result unit :=
  if c then Ok tt else Raise AssertionError.

(** ** Responses of the remote API and the values [get_workflow_metadata]
    hands back *)

(** A [requests] response carrying a JSON body. *)
Record response (A : Type) := mk_response {
  resp_status : Z;
  resp_body : A
}.
Arguments mk_response {A} resp_status resp_body.
Arguments resp_status {A} r.
Arguments resp_body {A} r.

(** A Python value holding a JSON body: the response object itself, or
    the dict decoded from it by [.json()]. *)
Inductive pyval (A : Type) : Type :=
  | PyResponse (r : response A)
  | PyDict (body : A).
Arguments PyResponse {A} r.
Arguments PyDict {A} body.

(** [v.json()]: a method of responses; a dict has no attribute 'json'. *)
Definition py_json {A} (v : pyval A) : result A :=
  match v with
  | PyResponse r => Ok (resp_body r)
  | PyDict _ => Raise AttributeError
  end.

(** [v['key']] needs a dict: a response object is not subscriptable. *)
Definition py_dict {A} (v : pyval A) : result A :=
  match v with
  | PyDict b => Ok b
  | PyResponse _ => Raise TypeError
  end.

(** [WorkspaceManager.get_workflow_metadata]:
    [assert metadata.status_code==200; return metadata.json()] *)
Definition get_workflow_metadata {A} (metadata : response A) : result (pyval A) :=
  _ <- py_assert (Z.eqb (resp_status metadata) 200) ;;
  body <- py_json (PyResponse metadata) ;;
  Ok (PyDict body).

(** ** Status Aggregator: [get_submission] and [get_entity_status] *)
Module EntityStatus.

(** An element of [r['workflows']] of a submission detail. *)
Record workflow := mk_workflow {
  wf_entity : string;            (* w['workflowEntity']['entityName'] *)
  wf_status : string;            (* w['status'] *)
  wf_id : option string          (* w['workflowId'], when the key is present *)
}.

(** An element of [list_submissions(config)]. *)
Record submission := mk_submission {
  sub_id : string;               (* s['submissionId'] *)
  sub_entity_type : string;      (* s['submissionEntity']['entityType'] *)
  sub_date : Z;                  (* timestamp of s['submissionDate'] *)
  sub_config : string            (* s['methodConfigurationName'] *)
}.

(** The dictionary stored in [entity_dict[entity_id]]. *)
Record status_record := mk_status_record {
  rec_status : string;
  rec_timestamp : Z;
  rec_submission_id : string;
  rec_configuration : string;
  rec_workflow_id : string
}.

(** The remote API: the workflows of a submission detail, or [None] for a
    non-200 response. *)
Definition submission_api := string -> option (list workflow).

(** [get_submission]: [assert r.status_code==200; return r.json()] *)
Definition get_submission (api : submission_api) (submission_id : string)
  : result (list workflow) :=
  match api submission_id with
  | Some ws => Ok ws
  | None => Raise AssertionError
  end.

Definition new_record (s : submission) (w : workflow) : status_record :=
  {| rec_status := wf_status w;
     rec_timestamp := sub_date s;
     rec_submission_id := sub_id s;
     rec_configuration := sub_config s;
     rec_workflow_id := match wf_id w with Some i => i | None => "NA" end |}.

(** The body of [for w in r['workflows']]:
    [if entity_id not in entity_dict or entity_dict[entity_id]['timestamp']<ts] *)
Definition update_entity (s : submission) (entity_dict : gmap string status_record)
    (w : workflow) : gmap string status_record :=
  match entity_dict !! wf_entity w with
  | None => <[wf_entity w := new_record s w]> entity_dict
  | Some r =>
      if Z.ltb (rec_timestamp r) (sub_date s)
      then <[wf_entity w := new_record s w]> entity_dict
      else entity_dict
  end.

(** The loop [for k,s in enumerate(submissions)]. *)
Fixpoint scan (api : submission_api) (etype : string) (submissions : list submission)
    (entity_dict : gmap string status_record) : result (gmap string status_record) :=
  match submissions with
  | [] => Ok entity_dict
  | s :: rest =>
      if negb (String.eqb (sub_entity_type s) etype)
      then scan api etype rest entity_dict      (* 'Incompatible submission entity type' *)
      else
        r <- get_submission api (sub_id s) ;;
        scan api etype rest (fold_left (update_entity s) r entity_dict)
  end.

(** [get_entity_status], given the already filtered [submissions]. *)
Definition get_entity_status (api : submission_api) (etype : string)
    (submissions : list submission) : result (gmap string status_record) :=
  scan api etype submissions ∅.

(** A submission of the right entity type whose detail lists a workflow
    on entity [e]. *)
Definition references (api : submission_api) (etype : string) (e : string)
    (s : submission) : bool :=
  String.eqb (sub_entity_type s) etype &&
  match api (sub_id s) with
  | Some ws => bool_decide (e ∈ map wf_entity ws)
  | None => false
  end.

(** The greater of a recorded timestamp (if any) and a new one. *)
Definition omax (o : option Z) (t : Z) : Z :=
  match o with Some a => Z.max a t | None => t end.

(** The timestamp recorded for entity [e]. *)
Definition ts_of (entity_dict : gmap string status_record) (e : string) : option Z :=
  rec_timestamp <$> entity_dict !! e.

(** The maximum submission timestamp among the matching submissions that
    reference [e], starting from [o]. *)
Definition latest_ts (api : submission_api) (etype e : string)
    (submissions : list submission) (o : option Z) : option Z :=
  fold_left (fun o s => if references api etype e s then Some (omax o (sub_date s)) else o)
    submissions o.

(** The submission whose record is kept for [e], when the call returns. *)
Definition kept_submission (res : result (gmap string status_record)) (e : string)
  : option string :=
  match res with
  | Ok d => rec_submission_id <$> d !! e
  | Raise _ => None
  end.

(** Concrete submissions: entity S1 of configuration wgs_pipeline is run
    three times; sub2 and sub3 carry the same timestamp; sub4 targets
    another entity type and its detail cannot be fetched. *)
Definition demo_s1 := mk_submission "sub1" "sample" 100 "wgs_pipeline".
Definition demo_s2 := mk_submission "sub2" "sample" 200 "wgs_pipeline".
Definition demo_s3 := mk_submission "sub3" "sample" 200 "wgs_pipeline".
Definition demo_s4 := mk_submission "sub4" "pair" 300 "wgs_pipeline".
Definition demo_s5 := mk_submission "sub5" "sample" 400 "wgs_pipeline".
Definition demo_subs := [demo_s1; demo_s2; demo_s4; demo_s3].

Definition demo_api : submission_api := fun sid =>
  if String.eqb sid "sub1" then Some [mk_workflow "S1" "Failed" (Some "wf1")]
  else if String.eqb sid "sub2" then Some [mk_workflow "S1" "Succeeded" (Some "wf2")]
  else if String.eqb sid "sub3" then Some [mk_workflow "S1" "Failed" (Some "wf3");
                                            mk_workflow "S2" "Running" None]
  else None.

Definition demo_status : gmap string status_record :=
  match get_entity_status demo_api "sample" demo_subs with Ok d => d | Raise _ => ∅ end.

End EntityStatus.

(** ** String helpers: [s.split(sep)[-1]] and [needle in s] *)

(** [s.split(sep)] for a one-character separator. *)
Fixpoint split_on (sep : Ascii.ascii) (s : string) : list string :=
  match s with
  | EmptyString => [EmptyString]
  | String c rest =>
      match split_on sep rest with
      | [] => [String c EmptyString]
      | h :: t => if Ascii.eqb c sep then EmptyString :: h :: t else String c h :: t
      end
  end.

(** [s.split(sep)[-1]], also [s.rsplit(sep)[-1]] and [s.rsplit(sep,1)[-1]]. *)
Definition last_component (sep : Ascii.ascii) (s : string) : string :=
  List.last (split_on sep s) EmptyString.

(** [needle in s] *)
Definition str_contains (needle s : string) : bool :=
  match String.index 0 needle s with Some _ => true | None => false end.

(** [np.sum] over a list of floats, in exact arithmetic. *)
Definition sumQ (l : list Q) : Q := fold_right Qplus 0%Q l.

(** [np.max] over a non-empty list. *)
Definition maxQ (l : list Q) : Q :=
  match l with
  | [] => 0%Q
  | x :: l' => fold_left Qmax l' x
  end.

(** ** Execution Statistics Engine: [get_stats] *)
Module Stats.
Local Open Scope Q_scope.

(** An element of [m['executionEvents']]; times are [convert_time] of the
    ISO strings, in seconds. *)
Record event := mk_event {
  ev_description : string;
  ev_start : Q;
  ev_end : Q
}.

(** An element of [metadata['calls'][t]]: one attempt of a task. *)
Record attempt := mk_attempt {
  at_shard : option Z;           (* j['shardIndex'], when the key is present *)
  at_start : Q;                  (* start timestamp, seconds *)
  at_end : Q;                    (* end timestamp, seconds *)
  at_events : list event;        (* j['executionEvents'] *)
  at_cache_hit : option bool;    (* j['callCaching']['hit'], when the key is present *)
  at_preemptible : bool;         (* j['preemptible'] *)
  at_machine : string;           (* j['jes']['machineType'] *)
  at_job_id : string             (* j['jobId'] *)
}.

(** Modelled from the spec: [workflow_time] (called by wmanager.py, which
    neither defines nor imports it; not under src/) is the wall-clock
    duration of an attempt, in seconds. *)
Definition workflow_time (a : attempt) : Q := at_end a - at_start a.

(** One row of [task_dfs[task_name]]; [None] is an unset (NaN) cell. *)
Record task_row := mk_task_row {
  time_h : Q;
  total_time_h : Q;
  max_preempt_time_h : option Q;
  machine_type : option string;
  attempts : option nat;
  start_time : option Q;
  est_cost : option Q;
  job_ids : option string
}.

(** [successes]: a dict from shard index to attempt, in insertion order. *)
Fixpoint dict_set (k : Z) (v : attempt) (d : list (Z * attempt)) : list (Z * attempt) :=
  match d with
  | [] => [(k, v)]
  | (k', v') :: d' => if Z.eqb k k' then (k, v) :: d' else (k', v') :: dict_set k v d'
  end.

Definition dict_mem (k : Z) (d : list (Z * attempt)) : bool :=
  existsb (fun p => Z.eqb p.1 k) d.

Fixpoint dict_get (k : Z) (d : list (Z * attempt)) : option attempt :=
  match d with
  | [] => None
  | (k', v) :: d' => if Z.eqb k' k then Some v else dict_get k d'
  end.

(** [for j in metadata_dict[i]['calls'][t]: if j['shardIndex'] in successes:
    preemptions.append(j); successes[j['shardIndex']] = j] *)
Fixpoint scatter_loop (js : list attempt) (successes : list (Z * attempt))
    (preemptions : list attempt) : result (list (Z * attempt) * list attempt) :=
  match js with
  | [] => Ok (successes, preemptions)
  | j :: rest =>
      match at_shard j with
      | None => Raise KeyError
      | Some k =>
          let preemptions' := if dict_mem k successes then preemptions ++ [j] else preemptions in
          scatter_loop rest (dict_set k j successes) preemptions'
      end
  end.

(** Shard resolution: the [successes] dict and the [preemptions] list. *)
Definition resolve_shards (calls : list attempt)
  : result (list (Z * attempt) * list attempt) :=
  match calls with
  | [] => Raise IndexError                       (* calls[t][0] *)
  | a0 :: _ =>
      match at_shard a0 with
      | Some _ => scatter_loop calls [] []       (* scatter = True *)
      | None => Ok ([(0%Z, List.last calls a0)], removelast calls)
      end
  end.

Definition is_quota_wait (e : event) : bool :=
  String.eqb (ev_description e) "waiting for quota".

(** The hours attempt [m] spent waiting for quota. *)
Definition quota_hours (m : attempt) : Q :=
  sumQ (map (fun q => (ev_end q - ev_start q) / 3600) (List.filter is_quota_wait (at_events m))).

(** [np.any(['hit' in j['callCaching'] and j['callCaching']['hit'] for j in ...])] *)
Definition cache_hit (calls : list attempt) : bool :=
  existsb (fun j => match at_cache_hit j with Some true => true | _ => false end) calls.

(** Specification side of shard resolution, stated on positions: the
    attempt at position [i] has a shard index already seen at an earlier
    position. *)
Definition same_shard (a b : attempt) : bool := bool_decide (at_shard a = at_shard b).

Definition is_retry (calls : list attempt) (i : nat) (a : attempt) : bool :=
  existsb (same_shard a) (take i calls).

(** The last attempt with shard index [k]. *)
Definition last_with_shard (calls : list attempt) (k : Z) : option attempt :=
  last (List.filter (fun a => bool_decide (at_shard a = Some k)) calls).

(** The accepted attempt for shard index [k], when resolution succeeds. *)
Definition accepted (calls : list attempt) (k : Z) : option attempt :=
  match resolve_shards calls with
  | Ok (successes, _) => dict_get k successes
  | Raise _ => None
  end.

Section TaskStats.
(** [get_vm_cost(machine_type, preemptible)]: the external pricing table. *)
Variable get_vm_cost : string -> bool -> Q.

(** The body of [for i in workflow_status_df.index] for one task [t]. *)
Definition task_stats (calls : list attempt) : result task_row :=
  sp <- resolve_shards calls ;;
  let successes := map snd sp.1 in
  let preemptions := sp.2 in
  let time0 := sumQ (map (fun j => workflow_time j / 3600) successes) in
  let quota_time := map (fun q => (ev_end q - ev_start q) / 3600)
                        (List.filter is_quota_wait (flat_map at_events successes)) in
  let time_h := time0 - sumQ quota_time in
  let total_time_list := map (fun a => workflow_time a / 3600) calls in
  let total := sumQ total_time_list - sumQ quota_time in
  if cache_hit calls then
    Ok (mk_task_row time_h total None None None None None None)
  else
    let was_preemptible := map at_preemptible calls in
    mp <- (if bool_decide (preemptions = []) then Ok None
           else p0 <- py_head was_preemptible ;;
                _ <- py_assert p0 ;;
                Ok (Some (maxQ (map workflow_time preemptions) / 3600))) ;;
    let machine_types := map (fun j => last_component "/"%char (at_machine j)) calls in
    let est := sumQ (zip_with (fun h mp => get_vm_cost mp.1 mp.2 * h)
                              total_time_list (zip machine_types was_preemptible)) in
    Ok (mk_task_row time_h total mp
          (Some (List.last machine_types EmptyString))
          (Some (length calls))
          (at_start <$> head calls)
          (Some est)
          (Some (String.concat "," (map at_job_id successes)))).

End TaskStats.

(** [int(s)] for the decimal suffix of a machine type. *)
Fixpoint parse_digits (s : string) (acc : Z) : option Z :=
  match s with
  | EmptyString => Some acc
  | String c rest =>
      let n := (Z.of_nat (Ascii.nat_of_ascii c) - 48)%Z in
      if (0 <=? n)%Z && (n <=? 9)%Z then parse_digits rest (10 * acc + n)%Z else None
  end.

Definition py_int (s : string) : result Z :=
  match s with
  | EmptyString => Raise ValueError
  | _ => match parse_digits s 0%Z with Some n => Ok n | None => Raise ValueError end
  end.

(** [lambda i: int(i.rsplit('-',1)[-1]) if (pd.notnull(i) and '-small' not in i
    and '-micro' not in i) else 1] *)
Definition core_count (mt : option string) : result Z :=
  match mt with
  | Some i =>
      if negb (str_contains "-small" i) && negb (str_contains "-micro" i)
      then py_int (last_component "-"%char i)
      else Ok 1%Z
  | None => Ok 1%Z
  end.

(** A NaN cell is skipped by [DataFrame.sum(axis=1)]. *)
Definition nan_to_zero (o : option Q) : Q := match o with Some c => c | None => 0 end.

Fixpoint cpu_hours_sum (rows : list task_row) : result Q :=
  match rows with
  | [] => Ok 0
  | r :: rows' =>
      c <- core_count (machine_type r) ;;
      rest <- cpu_hours_sum rows' ;;
      Ok (total_time_h r * inject_Z c + rest)
  end.

(** The per-entity [est_cost] and [cpu_hours] of [workflow_status_df], from
    the entity's rows in [task_dfs]. *)
Definition entity_rollup (rows : list task_row) : result (Q * Q) :=
  cpu <- cpu_hours_sum rows ;;
  Ok (sumQ (map (fun r => nan_to_zero (est_cost r)) rows), cpu).

Fixpoint map_result {A B} (f : A -> result B) (l : list A) : result (list B) :=
  match l with
  | [] => Ok []
  | x :: l' => y <- f x ;; ys <- map_result f l' ;; Ok (y :: ys)
  end.

(** The rows of one entity, for the attempt lists of its tasks. *)
Definition entity_rows (get_vm_cost : string -> bool -> Q) (tasks : list (list attempt))
  : result (list task_row) :=
  map_result (task_stats get_vm_cost) tasks.

(** The workflow metadata of one entity. *)
Record workflow_metadata := mk_workflow_metadata {
  wm_name : string;                              (* metadata['workflowName'] *)
  wm_calls : list (string * list attempt)        (* metadata['calls'] *)
}.

(** The metadata fetch of [get_stats] for one entity:
    [while fetch: try: metadata = self.get_workflow_metadata(...);
     metadata_dict[i] = metadata.json(); fetch = False; except: pass].
    The [n]-th try receives [responses n]; at most [fuel] tries are run and
    [None] means the loop is still running. *)
Fixpoint fetch_loop (fuel : nat) (responses : nat -> response workflow_metadata) (n : nat)
  : option workflow_metadata :=
  match fuel with
  | O => None
  | S fuel' =>
      match (metadata <- get_workflow_metadata (responses n) ;; py_json metadata) with
      | Ok m => Some m              (* fetch = False *)
      | Raise _ => fetch_loop fuel' responses (S n)     (* except: pass *)
      end
  end.

(** Concrete inputs. An hourly rate of 0.05 for preemptible and 0.2 for
    standard machines. *)
Definition demo_cost (mt : string) (preemptible : bool) : Q :=
  if preemptible then 1 # 20 else 1 # 5.

(** Three attempts of shard 0, at positions 0 < 1 < 2, lasting 1h, 0.5h, 2h. *)
Definition demo_p1 :=
  mk_attempt (Some 0%Z) 0 3600 [] (Some false) true "zones/n1-standard-8" "job1".
Definition demo_p2 :=
  mk_attempt (Some 0%Z) 3600 5400 [] (Some false) true "zones/n1-standard-8" "job2".
Definition demo_p3 :=
  mk_attempt (Some 0%Z) 5400 12600 [] (Some false) true "zones/n1-standard-8" "job3".
Definition demo_shard_calls := [demo_p1; demo_p2; demo_p3].

(** An unsharded attempt of 2h, 0.5h of which waiting for quota. *)
Definition demo_quota_attempt :=
  mk_attempt None 0 7200 [mk_event "waiting for quota" 600 2400]
    (Some false) true "zones/n1-standard-8" "jobq".

(** An unsharded attempt of 1h served from the call cache. *)
Definition demo_cached_attempt :=
  mk_attempt None 0 3600 [] (Some true) false "zones/n1-standard-4" "jobc".

(** A preempted unsharded task whose first attempt was not preemptible. *)
Definition demo_np1 :=
  mk_attempt None 0 3600 [] (Some false) false "zones/n1-standard-4" "jobn1".
Definition demo_np2 :=
  mk_attempt None 3600 7200 [] (Some false) true "zones/n1-standard-4" "jobn2".
Definition demo_nonpreemptible_calls := [demo_np1; demo_np2].

(** A remote that answers every metadata request with status 200. *)
Definition demo_metadata := mk_workflow_metadata "wgs" [("wgs.align", [demo_p1])].
Definition demo_ok_responses : nat -> response workflow_metadata :=
  fun _ => mk_response 200 demo_metadata.

End Stats.

(** ** Attribute Reconciler: [patch_attributes] *)
Module Patch.

(** An attempt of a task, as [patch_attributes] reads it. *)
Record task_call := mk_task_call {
  tc_outputs : option (list (string * string))   (* j['outputs'], when the key is present *)
}.

(** The workflow metadata, as [patch_attributes] reads it. *)
Record metadata := mk_metadata {
  md_outputs : option (list (string * string));  (* metadata['outputs'], when present *)
  md_calls : list (string * list task_call)      (* metadata['calls'] *)
}.

(** The [attrs] argument of [update_entity_attributes]. *)
Inductive attrs_arg :=
  | AttrFrame (rows : list (string * list (string * string)))  (* pd.DataFrame *)
  | AttrSeries (name : string) (values : list (string * string)) (* pd.Series *)
  | AttrDict (d : list (string * string)).                     (* a dict *)

(** The remote entity attributes: entity name to attribute name to value;
    a missing attribute is a null cell. *)
Record store := mk_store {
  st_samples : gmap string (gmap string string);
  st_sample_sets : gmap string (gmap string string)
}.

Definition set_attrs (name : string) (ops : list (string * string))
    (ents : gmap string (gmap string string)) : gmap string (gmap string string) :=
  <[name := fold_left (fun m kv => <[kv.1 := kv.2]> m) ops (default ∅ (ents !! name))]> ents.

(** [update_entity_attributes(etype, attrs)]: anything but a DataFrame or
    a Series raises [ValueError('Unsupported input format.')]; the batch
    update is taken to succeed. *)
Definition update_entity_attributes (attrs : attrs_arg)
    (ents : gmap string (gmap string string)) : result (gmap string (gmap string string)) :=
  match attrs with
  | AttrFrame rows => Ok (fold_left (fun e r => set_attrs r.1 r.2 e) rows ents)
  | AttrSeries name values => Ok (fold_left (fun e v => set_attrs v.1 [(name, v.2)] e) values ents)
  | AttrDict _ => Raise ValueError
  end.

(** The state [patch_attributes] threads: the remote store, every call to
    an attribute-update method (in order), and the locals [metadata]
    (unbound at first) and [task_counts]. *)
Record state := mk_state {
  st_store : store;
  st_writes : list (string * attrs_arg);
  st_metadata : option (pyval metadata);
  st_counts : list (string * nat)
}.

(** A state and exception monad. *)
Definition M (A : Type) := state -> result A * state.

Definition mret {A} (a : A) : M A := fun st => (Ok a, st).

Definition mbind' {A B} (m : M A) (k : A -> M B) : M B := fun st =>
  match m st with
  | (Ok a, st') => k a st'
  | (Raise e, st') => (Raise e, st')
  end.

Notation "x <-- m ;;; k" := (mbind' m (fun x => k))
  (at level 100, m at next level, right associativity).

Definition lift {A} (r : result A) : M A := fun st => (r, st).

(** [try: m except: h] *)
Definition try_except {A} (m : M A) (h : M A) : M A := fun st =>
  match m st with
  | (Ok a, st') => (Ok a, st')
  | (Raise _, st') => h st'
  end.

Definition set_metadata (v : pyval metadata) : M unit := fun st =>
  (Ok tt, {| st_store := st_store st; st_writes := st_writes st;
             st_metadata := Some v; st_counts := st_counts st |}).

Fixpoint incr (k : string) (counts : list (string * nat)) : list (string * nat) :=
  match counts with
  | [] => [(k, 1%nat)]
  | (k', n) :: rest => if String.eqb k k' then (k', S n) :: rest else (k', n) :: incr k rest
  end.

(** [task_counts[k] += 1] on a defaultdict(int). *)
Definition incr_count (k : string) : M unit := fun st =>
  (Ok tt, {| st_store := st_store st; st_writes := st_writes st;
             st_metadata := st_metadata st; st_counts := incr k (st_counts st) |}).

(** [update_sample_attributes(sample_id, attrs)] and
    [update_sample_set_attributes(sample_set_id, attrs)]: both ignore the
    id and call [update_entity_attributes] on their entity type. *)
Definition update_sample_attributes (sample_id : string) (attrs : attrs_arg) : M unit := fun st =>
  let st1 := {| st_store := st_store st; st_writes := st_writes st ++ [("sample", attrs)];
                st_metadata := st_metadata st; st_counts := st_counts st |} in
  match update_entity_attributes attrs (st_samples (st_store st)) with
  | Ok ents => (Ok tt, {| st_store := mk_store ents (st_sample_sets (st_store st));
                          st_writes := st_writes st1; st_metadata := st_metadata st;
                          st_counts := st_counts st |})
  | Raise e => (Raise e, st1)
  end.

Definition update_sample_set_attributes (sample_set_id : string) (attrs : attrs_arg) : M unit :=
  fun st =>
  let st1 := {| st_store := st_store st; st_writes := st_writes st ++ [("sample_set", attrs)];
                st_metadata := st_metadata st; st_counts := st_counts st |} in
  match update_entity_attributes attrs (st_sample_sets (st_store st)) with
  | Ok ents => (Ok tt, {| st_store := mk_store (st_samples (st_store st)) ents;
                          st_writes := st_writes st1; st_metadata := st_metadata st;
                          st_counts := st_counts st |})
  | Raise e => (Raise e, st1)
  end.

Fixpoint m_iter {A} (f : A -> M unit) (l : list A) : M unit :=
  match l with
  | [] => mret tt
  | x :: l' => _ <-- f x ;;; m_iter f l'
  end.

(** [d[k]] *)
Definition getitem {A} (o : option A) : result A :=
  match o with Some a => Ok a | None => Raise KeyError end.

(** [l[-1]] *)
Definition py_last {A} (l : list A) : result A :=
  match l with [] => Raise IndexError | x :: l' => Ok (List.last l' x) end.

(** The inputs of [patch_attributes] that come from read-only remote
    calls: the configuration's [output_map], the status table of
    [get_sample_status] / [get_sample_set_status] (entity id to status,
    submission id, workflow id, in table order) and the metadata responses. *)
Record inputs := mk_inputs {
  output_map : gmap string string;
  sample_status : gmap string (string * string * string);
  sample_set_status : list (string * (string * string * string));
  metadata_api : string -> string -> response metadata
}.

Definition columns (inp : inputs) : list string := map snd (map_to_list (output_map inp)).

(** The body of the [try] in the sample loop. *)
Definition patch_sample (inp : inputs) (dry_run : bool) (sample_id : string)
    (row : gmap string string) : M unit :=
  ids <-- lift (getitem (sample_status inp !! sample_id)) ;;;
  v <-- lift (get_workflow_metadata (metadata_api inp ids.1.2 ids.2)) ;;;
  _ <-- set_metadata v ;;;
  md <-- lift (py_dict v) ;;;
  if match md_outputs md with Some o => negb (bool_decide (o = [])) | None => false end
     && negb dry_run
  then
    attr <-- lift (Stats.map_result (fun kt => c <- getitem (output_map inp !! last_component "."%char kt.1) ;;
                                      Ok (c, kt.2))
                           (default [] (md_outputs md))) ;;;
    update_sample_attributes sample_id (AttrDict attr)
  else
    m_iter (fun tc =>
      last_call <-- lift (py_last tc.2) ;;;
      match tc_outputs last_call with
      | None => mret tt
      | Some outs =>
          if forallb (fun kv => bool_decide (is_Some (output_map inp !! kv.1))) outs then
            cols <-- lift (Stats.map_result (fun kv => getitem (output_map inp !! kv.1)) outs) ;;;
            if existsb (fun c => bool_decide (row !! c = None)) cols then
              _ <-- (if negb dry_run then
                       attr <-- lift (Stats.map_result (fun kv => c <- getitem (output_map inp !! kv.1) ;;
                                                        Ok (c, kv.2)) outs) ;;;
                       update_sample_attributes sample_id (AttrDict attr)
                     else mret tt) ;;;
              incr_count (last_component "."%char tc.1)
            else mret tt
          else mret tt
      end) (md_calls md).

(** The [except:] branch: [print(metadata.json())]. *)
Definition except_handler : M unit := fun st =>
  match st_metadata st with
  | None => (Raise UnboundLocalError, st)
  | Some v => ((_ <- py_json v ;; Ok tt), st)
  end.

Fixpoint sample_loop (inp : inputs) (dry_run : bool)
    (incomplete : list (string * gmap string string)) : M unit :=
  match incomplete with
  | [] => mret tt
  | (sample_id, row) :: rest =>
      _ <-- try_except (patch_sample inp dry_run sample_id row) except_handler ;;;
      sample_loop inp dry_run rest
  end.

(** The columns of a DataFrame built from the entities' attributes. *)
Definition df_columns (ents : gmap string (gmap string string)) : list string :=
  map_fold (fun _ attrs cs => map fst (map_to_list attrs) ++ cs) [] ents.

Definition is_incomplete (cols : list string) (attrs : gmap string string) : bool :=
  existsb (fun c => bool_decide (attrs !! c = None)) cols.

(** [incomplete_df] of the sample branch. *)
Definition incomplete_samples (cols : list string) (ents : gmap string (gmap string string))
  : result (list (string * gmap string string)) :=
  let df_cols := df_columns ents in
  if existsb (fun c => bool_decide (c ∈ df_cols)) cols then
    if forallb (fun c => bool_decide (c ∈ df_cols)) cols
    then Ok (List.filter (fun e => is_incomplete cols e.2) (map_to_list ents))
    else Raise KeyError                                         (* samples_df[columns] *)
  else Ok (map (fun e => (e.1, ∅)) (map_to_list ents)).       (* all cells null *)

(** The sample branch, from the line [samples_df = self.get_samples()]. *)
Definition patch_samples (inp : inputs) (dry_run : bool) : M (list (string * nat)) :=
  fun st =>
  match incomplete_samples (columns inp) (st_samples (st_store st)) with
  | Raise e => (Raise e, st)
  | Ok incomplete =>
      (* sample_status_df.loc[incomplete_df.index, 'status'] *)
      if forallb (fun e => bool_decide (is_Some (sample_status inp !! e.1))) incomplete then
        match sample_loop inp dry_run incomplete st with
        | (Ok _, st') => (Ok (st_counts st'), st')
        | (Raise e, st') => (Raise e, st')
        end
      else (Raise KeyError, st)
  end.

(** The sample-set branch, from [sample_set_df = self.get_sample_sets()].
    [np.any(error_ix)] is read as: some incomplete set has status
    'Succeeded'. *)
Definition patch_sample_sets (inp : inputs) (dry_run : bool) : M (list (string * nat)) :=
  fun st =>
  let ents := st_sample_sets (st_store st) in
  let df_cols := df_columns ents in
  if negb (forallb (fun c => bool_decide (c ∈ df_cols)) (columns inp)
           && forallb (fun e => bool_decide (is_Some (ents !! e.1))) (sample_set_status inp))
  then (Raise KeyError, st)              (* sample_set_df.loc[status index, columns] *)
  else
    let incomplete := List.filter (fun e => is_incomplete (columns inp) (default ∅ (ents !! e.1)))
                                  (sample_set_status inp) in
    if existsb (fun e => String.eqb e.2.1.1 "Succeeded") incomplete then
      (_ <-- m_iter (fun e =>
          v <-- lift (get_workflow_metadata (metadata_api inp e.2.1.2 e.2.2)) ;;;
          md <-- lift (py_dict v) ;;;
          if match md_outputs md with Some o => negb (bool_decide (o = [])) | None => false end
             && negb dry_run
          then
            attr <-- lift (Stats.map_result (fun kt => c <- getitem (output_map inp !! last_component "."%char kt.1) ;;
                                              Ok (c, kt.2))
                                   (default [] (md_outputs md))) ;;;
            update_sample_set_attributes e.1 (AttrDict attr)
          else mret tt) incomplete ;;;
       mret []) st
    else (Ok [], st).

(** A call of [patch_attributes] starts with fresh locals. *)
Definition initial_state (s : store) : state :=
  {| st_store := s; st_writes := []; st_metadata := None; st_counts := [] |}.

(** The branch on [entity]. *)
Definition entity_run (inp : inputs) (dry_run : bool) (entity : string) : M (list (string * nat)) :=
  if String.eqb entity "sample" then patch_samples inp dry_run
  else if String.eqb entity "sample_set" then patch_sample_sets inp dry_run
  else mret [].

(** [patch_attributes(cnamespace, configuration, dry_run, entity)] on the
    remote store [s]: the reported per-task counts, the store afterwards
    and the attribute-update calls issued. *)
Definition patch_attributes (inp : inputs) (dry_run : bool) (entity : string) (s : store)
  : result (list (string * nat)) * store * list (string * attrs_arg) :=
  let '(r, st) := entity_run inp dry_run entity (initial_state s) in (r, st_store st, st_writes st).

(** A workspace with two samples whose attributes lack the configured
    output column; the metadata request of the first sample fails. *)
Definition demo_output_map : gmap string string := <["out1" := "col_a"]> ∅.

Definition demo_metadata_api (submission_id workflow_id : string) : response metadata :=
  if String.eqb workflow_id "wf1"
  then mk_response 500 (mk_metadata None [])
  else mk_response 200 (mk_metadata (Some [("wf.out1", "v2")]) []).

Definition demo_inputs : inputs := {|
  output_map := demo_output_map;
  sample_status := <["S1" := ("Succeeded", "sub1", "wf1")]>
                     (<["S2" := ("Succeeded", "sub2", "wf2")]> ∅);
  sample_set_status := [];
  metadata_api := demo_metadata_api
|}.

Definition demo_attrs : gmap string string := <["participant" := "P1"]> ∅.

Definition demo_store : store :=
  mk_store (<["S1" := demo_attrs]> (<["S2" := demo_attrs]> ∅)) ∅.

Definition demo_store_s2 : store := mk_store (<["S2" := demo_attrs]> ∅) ∅.

End Patch.

(** ** Listing submissions: [list_submissions] *)
Module Submissions.
Import EntityStatus.

(** [list_submissions(config)]: [assert submissions.status_code==200], then
    [[s for s in submissions if config in s['methodConfigurationName']]]
    when a configuration is given. [config_of] reads the configuration
    name of a listed submission. *)
Definition list_submissions {S} (config_of : S -> string) (r : response (list S))
    (config : option string) : result (list S) :=
  _ <- py_assert (Z.eqb (resp_status r) 200) ;;
  let submissions := resp_body r in
  match config with
  | Some c => Ok (List.filter (fun s => str_contains c (config_of s)) submissions)
  | None => Ok submissions
  end.

(** [get_entity_status(etype, config)], from its listing request on. *)
Definition get_entity_status_of (listing : response (list submission)) (api : submission_api)
    (etype : string) (config : option string) : result (gmap string status_record) :=
  submissions <- list_submissions sub_config listing config ;;
  get_entity_status api etype submissions.

End Submissions.

(** ** Paginated entity queries: [_get_entities_query], [get_entities] and
    workspace attributes: [get_attributes] *)
Module Entities.

(** An element of [r['results']]. *)
Record entity (V : Type) := mk_entity {
  ent_name : string;                 (* i['name'] *)
  ent_attributes : gmap string V     (* i['attributes'] *)
}.
Arguments mk_entity {V} ent_name ent_attributes.
Arguments ent_name {V} e.
Arguments ent_attributes {V} e.

(** The body of one page of an entity query. *)
Record page (V : Type) := mk_page {
  filtered_page_count : Z;           (* r['resultMetadata']['filteredPageCount'] *)
  results : list (entity V)          (* r['results'] *)
}.
Arguments mk_page {V} filtered_page_count results.
Arguments filtered_page_count {V} p.
Arguments results {V} p.

(** [firecloud.api.get_entities_query(namespace, workspace, etype,
    page=page, page_size=page_size)] *)
Definition entities_api (V : Type) := string -> Z -> Z -> response (page V).

(** [_get_entities_query(etype, page, page_size)] *)
Definition get_entities_query {V} (api : entities_api V) (etype : string) (p page_size : Z)
  : result (page V) :=
  let r := api etype p page_size in
  _ <- py_assert (Z.eqb (resp_status r) 200) ;;
  Ok (resp_body r).

(** [range(a, b)] *)
Definition py_range (a b : Z) : list Z :=
  map (fun i => (a + Z.of_nat i)%Z) (seq 0 (Z.to_nat (b - a))).

(** [for page in range(2,total_pages+1): r = self._get_entities_query(...);
    all_entities.extend(r['results'])], with the pages requested so far. *)
Fixpoint more_pages {V} (api : entities_api V) (etype : string) (page_size : Z)
    (pages : list Z) (all_entities : list (entity V)) (requested : list Z)
  : result (list (entity V)) * list Z :=
  match pages with
  | [] => (Ok all_entities, requested)
  | p :: ps =>
      match get_entities_query api etype p page_size with
      | Ok r => more_pages api etype page_size ps (all_entities ++ results r) (requested ++ [p])
      | Raise e => (Raise e, requested ++ [p])
      end
  end.

(** [pd.DataFrame({i['name']:i['attributes'] for i in all_entities}).T]:
    the rows by entity name (a missing attribute is a NaN cell); a later
    entity of the same name replaces an earlier one. *)
Definition entity_table {V} (all_entities : list (entity V)) : gmap string (gmap string V) :=
  fold_left (fun m i => <[ent_name i := ent_attributes i]> m) all_entities ∅.

(** [get_entities(etype, page_size)]: the table, and the pages requested
    in order. *)
Definition get_entities {V} (api : entities_api V) (etype : string) (page_size : Z)
  : result (gmap string (gmap string V)) * list Z :=
  match get_entities_query api etype 1 page_size with
  | Raise e => (Raise e, [1%Z])
  | Ok r =>
      let total_pages := filtered_page_count r in
      match more_pages api etype page_size (py_range 2 (total_pages + 1)) (results r) [1%Z] with
      | (Ok all_entities, requested) => (Ok (entity_table all_entities), requested)
      | (Raise e, requested) => (Raise e, requested)
      end
  end.

(** The pages [get_entities] asks for once page 1 has answered: page 1,
    then [range(2,total_pages+1)]. *)
Definition listed_pages {V} (api : entities_api V) (etype : string) (page_size : Z) : list Z :=
  1%Z :: py_range 2 (filtered_page_count (resp_body (api etype 1%Z page_size)) + 1).

(** The entities listed on the given pages, in order. *)
Definition listed_entities {V} (api : entities_api V) (etype : string) (page_size : Z)
    (pages : list Z) : list (entity V) :=
  concat (map (fun p => results (resp_body (api etype p page_size))) pages).

(** [r.json()['workspace']] of [firecloud.api.get_workspace]. *)
Record workspace_json (V : Type) := mk_workspace_json {
  bucket_name : string;              (* ['bucketName'] *)
  ws_attributes : gmap string V      (* ['attributes'] *)
}.
Arguments mk_workspace_json {V} bucket_name ws_attributes.
Arguments bucket_name {V} w.
Arguments ws_attributes {V} w.

(** [get_attributes()]: [for k in [k for k in attr if 'library:' in k]:
    attr.pop(k)] *)
Definition get_attributes {V} (r : response (workspace_json V)) : result (gmap string V) :=
  _ <- py_assert (Z.eqb (resp_status r) 200) ;;
  let attr := ws_attributes (resp_body r) in
  Ok (fold_left (fun a k => delete k a)
        (List.filter (fun k => str_contains "library:" k) (map fst (map_to_list attr))) attr).

(** Two pages of samples; S2 is listed on both. *)
Definition demo_page (p : Z) : page string :=
  if Z.eqb p 1 then mk_page 2 [mk_entity "S1" (<["participant" := "P1"]> ∅);
                               mk_entity "S2" (<["participant" := "P1"]> ∅)]
  else mk_page 2 [mk_entity "S2" (<["participant" := "P2"]> ∅)].

Definition demo_api : entities_api string := fun _ p _ =>
  mk_response (if Z.leb p 2 then 200 else 404) (demo_page p).

(** A workspace with one library attribute and one data attribute. *)
Definition demo_workspace : response (workspace_json string) :=
  mk_response 200 (mk_workspace_json "bucket"
    (<["library:published" := "yes"]> (<["ref" := "hg38"]> ∅))).

Definition demo_workspace_attributes : gmap string string :=
  match get_attributes demo_workspace with Ok a => a | Raise _ => ∅ end.

(** The same listing announcing three pages, the third of which fails. *)
Definition demo_api_broken : entities_api string := fun _ p _ =>
  mk_response (if Z.leb p 2 then 200 else 500) (mk_page 3 (results (demo_page p))).

End Entities.

(** ** Sample sets: [get_sample_sets] and [find_sample_set] *)
Module SampleSets.

(** An element of [s['attributes'][c]['items']]: an entity reference or
    a plain value. *)
Inductive item :=
  | ItemEntity (name : string)       (* a dict with an 'entityName' *)
  | ItemValue (v : string).

(** [s['attributes'][c]]: a dict holding ['items'], or a plain value. *)
Inductive attr_value :=
  | AttrItems (items : list item)
  | AttrPlain (v : string).

(** An element of the [get_entities(..., 'sample_set')] response. *)
Record sample_set_json := mk_sample_set_json {
  ss_name : string;                       (* s['name'] *)
  ss_attributes : gmap string attr_value  (* s['attributes'] *)
}.

(** A cell of the table; a missing cell is NaN. *)
Inductive cell :=
  | CellList (l : list string)
  | CellStr (v : string).

Record table := mk_table {
  tbl_columns : list string;
  tbl_rows : list (string * gmap string cell)   (* index label, cells *)
}.

(** [i['entityName'] if 'entityName' in i else i] *)
Definition item_value (i : item) : string :=
  match i with ItemEntity n => n | ItemValue v => v end.

Definition to_cell (v : attr_value) : cell :=
  match v with
  | AttrItems items => CellList (map item_value items)
  | AttrPlain v => CellStr v
  end.

(** [df.loc[name, c] = v]: every row labelled [name]. *)
Definition loc_set (name c : string) (v : cell) (rows : list (string * gmap string cell))
  : list (string * gmap string cell) :=
  map (fun row => if String.eqb row.1 name then (row.1, <[c := v]> row.2) else row) rows.

(** [get_sample_sets()]. [np.unique] also sorts the columns; their order
    does not affect any cell. *)
Definition get_sample_sets (r : response (list sample_set_json)) : result table :=
  _ <- py_assert (Z.eqb (resp_status r) 200) ;;
  let r := resp_body r in
  let sample_set_ids := map ss_name r in
  let columns := remove_dups (flat_map (fun s => map fst (map_to_list (ss_attributes s))) r) in
  let df := map (fun i => (i, (∅ : gmap string cell))) sample_set_ids in
  Ok (mk_table columns
        (fold_left (fun df s =>
           fold_left (fun df c =>
             match ss_attributes s !! c with
             | Some v => loc_set (ss_name s) c (to_cell v) df
             | None => df
             end) columns df) r df)).

(** [sample_id in x] for a cell [x]: list membership, a substring test on
    a string, and a TypeError on NaN (a float is not iterable). *)
Definition cell_contains (sample_id : string) (x : option cell) : result bool :=
  match x with
  | Some (CellList l) => Ok (existsb (String.eqb sample_id) l)
  | Some (CellStr v) => Ok (str_contains sample_id v)
  | None => Raise TypeError
  end.

(** [find_sample_set(sample_id, sample_set_df)]:
    [sample_set_df[sample_set_df['samples'].apply(lambda x: sample_id in x)].index.tolist()] *)
Definition find_sample_set (sample_id : string) (df : table) : result (list string) :=
  if negb (existsb (String.eqb "samples") (tbl_columns df)) then Raise KeyError
  else
    mask <- Stats.map_result (fun row => cell_contains sample_id (row.2 !! "samples"))
                             (tbl_rows df) ;;
    Ok (map fst (List.filter snd (zip (map fst (tbl_rows df)) mask))).

(** The member names a set lists in its 'samples' attribute (none for a
    plain value or a missing attribute). *)
Definition samples_members (s : sample_set_json) : list string :=
  match ss_attributes s !! "samples" with
  | Some (AttrItems items) => map item_value items
  | _ => []
  end.

(** Two sample sets, then a third one (SS2) with no 'samples' attribute. *)
Definition demo_sets : list sample_set_json :=
  [mk_sample_set_json "SS1" (<["samples" := AttrItems [ItemEntity "S1"; ItemEntity "S2"]]> ∅);
   mk_sample_set_json "SS3" (<["samples" := AttrItems [ItemEntity "S2"]]> ∅)].

Definition demo_sets_missing : list sample_set_json :=
  demo_sets ++ [mk_sample_set_json "SS2" (<["note" := AttrPlain "x"]> ∅)].

End SampleSets.

(** ** Tumor/normal pairing: [make_pairs] *)
Module Pairs.

(** A row of the samples table [df]. *)
Record sample_row := mk_sample_row {
  smp_id : string;                  (* the index *)
  smp_participant : string;         (* df['participant'] *)
  smp_type : option string          (* df['sample_type'], None for NaN *)
}.







(** A participant with a normal, a tumor and an untyped sample. *)
Definition demo_df : list sample_row :=
  [mk_sample_row "N1" "P1" (Some "Normal"); mk_sample_row "T1" "P1" (Some "Tumor");
   mk_sample_row "X1" "P1" None; mk_sample_row "T2" "P2" (Some "Tumor")].

End Pairs.

(** ** Task status display: [display_status] and [get_stderr] *)
Module Display.

(** An attempt in [metadata['calls'][t]], as [display_status] reads it. *)
Record call := mk_call { execution_status : string }.

(** The workflow metadata: [metadata['calls']], in key order. *)
Record wf_metadata := mk_wf_metadata { calls : list (string * list call) }.

(** A row of [status_df] (the result of [get_sample_status]). *)
Record status_row := mk_status_row {
  sr_entity : string;                (* the index *)
  sr_status : string;
  sr_workflow_id : string;
  sr_submission_id : string
}.

(** A cell of [state_df]: the initial integer 0, or a string. *)
Inductive cell :=
  | CInt (z : Z)
  | CStr (s : string).

(** [a == b] on two cells; a string never equals an integer. *)
Definition cell_eqb (a b : cell) : bool :=
  match a, b with
  | CInt x, CInt y => Z.eqb x y
  | CStr x, CStr y => String.eqb x y
  | _, _ => false
  end.

Record state_table := mk_state_table {
  st_columns : list string;
  st_rows : list (string * list cell)   (* index label, cells by column *)
}.

(** [d[k]] on a dict given in key order. *)
Definition dict_lookup {A} (k : string) (d : list (string * A)) : option A :=
  snd <$> List.find (fun p => String.eqb p.1 k) d.

(** [metadata['calls'][t][-1]['executionStatus'] if t in metadata['calls']
    else 'Waiting'] *)
Definition task_state (md : wf_metadata) (t : string) : result string :=
  match dict_lookup t (calls md) with
  | Some cs => c <- Patch.py_last cs ;; Ok (execution_status c)
  | None => Ok "Waiting"
  end.

(** [i.split('.')[1]] *)
Definition second_component (s : string) : result string :=
  match split_on "."%char s with
  | _ :: x :: _ => Ok x
  | _ => Raise IndexError
  end.

(** [state_df.loc[i] = vals]: every row labelled [i]. *)
Definition loc_set_row (i : string) (vals : list cell) (rows : list (string * list cell))
  : list (string * list cell) :=
  map (fun row => if String.eqb row.1 i then (row.1, vals) else row) rows.

(** The loop [for k,i in enumerate(ix)]. *)
Fixpoint fill_rows (api : string -> string -> response wf_metadata) (workflow_tasks : list string)
    (ix : list status_row) (rows : list (string * list cell)) : result (list (string * list cell)) :=
  match ix with
  | [] => Ok rows
  | r :: ix' =>
      v <- get_workflow_metadata (api (sr_submission_id r) (sr_workflow_id r)) ;;
      md <- py_dict v ;;
      vals <- Stats.map_result (task_state md) workflow_tasks ;;
      fill_rows api workflow_tasks ix' (loc_set_row (sr_entity r) (map CStr vals) rows)
  end.

(** [s.value_counts()]: each distinct value with its number of
    occurrences. *)
Fixpoint count_value (v : cell) (counts : list (cell * nat)) : list (cell * nat) :=
  match counts with
  | [] => [(v, 1%nat)]
  | (w, n) :: rest => if cell_eqb v w then (w, S n) :: rest else (w, n) :: count_value v rest
  end.

Definition value_counts (col : list cell) : list (cell * nat) :=
  fold_left (fun acc v => count_value v acc) col [].

(** [display_status(configuration, entity, filter_active)] on the rows of
    [status_df]: [state_df] and, per task column, its value counts
    ([summary_df]). A column is read at its first position. *)
Definition display_status (api : string -> string -> response wf_metadata)
    (status_df : list status_row) (filter_active : bool)
  : result (state_table * list (string * list (cell * nat))) :=
  first <- py_head status_df ;;                    (* status_df['submission_id'][0] *)
  v0 <- get_workflow_metadata (api (sr_submission_id first) (sr_workflow_id first)) ;;
  md0 <- py_dict v0 ;;
  let workflow_tasks := map fst (calls md0) in
  let ix := if filter_active
            then List.filter (fun r => negb (String.eqb (sr_status r) "Succeeded")) status_df
            else status_df in
  let state0 := map (fun r => (sr_entity r, map (fun _ => CInt 0) workflow_tasks)) ix in
  rows <- fill_rows api workflow_tasks ix state0 ;;
  cols <- Stats.map_result second_component workflow_tasks ;;
  summary <- (if bool_decide (cols = []) then Raise ValueError   (* pd.concat([]) *)
              else Ok (zip cols (map (fun k => value_counts (map (fun row => nth k row.2 (CInt 0)) rows))
                                     (seq 0 (length cols))))) ;;
  Ok (mk_state_table (cols ++ ["workflow_id"; "submission_id"])
        (zip_with (fun row r => (row.1, row.2 ++ [CStr (sr_workflow_id r); CStr (sr_submission_id r)]))
                  rows ix),
      summary).

Fixpoint index_of (x : string) (l : list string) : option nat :=
  match l with
  | [] => None
  | y :: l' => if String.eqb x y then Some 0%nat else S <$> index_of x l'
  end.

(** [get_stderr(state_df, task_name)]: [df = state_df[state_df[task_name]==-1]],
    then the loop body [fetch_stderr] (metadata request and [gsutil cat])
    for each label of [df.index]. *)
Definition get_stderr (fetch_stderr : string -> result string) (state_df : state_table)
    (task_name : string) : result (list string) :=
  match index_of task_name (st_columns state_df) with
  | None => Raise KeyError
  | Some k =>
      let fail_idx := map fst (List.filter (fun row => cell_eqb (nth k row.2 (CInt 0)) (CInt (-1)))
                                           (st_rows state_df)) in
      Stats.map_result fetch_stderr fail_idx
  end.

(** Two samples, one still running. *)
Definition demo_status_df : list status_row :=
  [mk_status_row "S1" "Succeeded" "wf1" "sub1"; mk_status_row "S2" "Running" "wf2" "sub2"].

Definition demo_api (submission_id workflow_id : string) : response wf_metadata :=
  mk_response 200 (mk_wf_metadata
    (if String.eqb workflow_id "wf1"
     then [("wgs.align", [mk_call "Done"]); ("wgs.call", [mk_call "Done"])]
     else [("wgs.align", [mk_call "Failed"; mk_call "Running"])])).

(** The tables [display_status] returns on these samples. *)
Definition demo_display : state_table * list (string * list (cell * nat)) :=
  match display_status demo_api demo_status_df false with
  | Ok p => p
  | Raise _ => (mk_state_table [] [], [])
  end.

End Display.

(** ** Participant membership: [update_participant_samples] *)
Module Participants.

Definition str_le (a b : string) : Prop :=
  match String.compare a b with Gt => False | _ => True end.

#[local] Instance str_le_dec : RelDecision str_le.
Proof. intros a b. unfold str_le. destruct (String.compare a b); apply _. Defined.

(** [np.unique]: the distinct values, in increasing order. *)
Definition np_unique (l : list string) : list string :=
  remove_dups (merge_sort str_le l).

(** [samples_dict[k]] of [{k:g.index.values for k,g in df.groupby('participant')}]:
    the samples of participant [k], in table order. *)
Definition samples_of (df : list (string * string)) (k : string) : list string :=
  map fst (List.filter (fun r => String.eqb r.2 k) df).

(** The loop [for j,k in enumerate(participant_ids)]: each
    [update_entity(..., 'participant', k, attrs)] request (logged as the
    participant and the sample names of its "samples_" list), then
    [assert r.status_code==200]. *)
Fixpoint update_loop (update_entity : string -> list string -> Z) (df : list (string * string))
    (participant_ids : list string) (log : list (string * list string))
  : result unit * list (string * list string) :=
  match participant_ids with
  | [] => (Ok tt, log)
  | k :: ks =>
      let items := samples_of df k in
      let log' := log ++ [(k, items)] in
      if Z.eqb (update_entity k items) 200 then update_loop update_entity df ks log'
      else (Raise AssertionError, log')
  end.

(** [update_participant_samples()] on [df = self.get_samples()[['participant']]],
    given as (sample id, participant) rows. *)
Definition update_participant_samples (update_entity : string -> list string -> Z)
    (df : list (string * string)) : result unit * list (string * list string) :=
  update_loop update_entity df (np_unique (map snd df)) [].

Definition demo_df : list (string * string) :=
  [("S3", "P2"); ("S1", "P1"); ("S2", "P2")].

End Participants.

(** ** Names wmanager.py does not bind *)
Module Deletes.

(** A positional argument of the calls below. *)
Inductive pyarg :=
  | ArgManager                                   (* a WorkspaceManager *)
  | ArgStr (s : string)
  | ArgBool (b : bool)
  | ArgSeries (name : string) (items : list (string * string)).   (* index label, path *)

(** [if x:] *)
Definition truthy (a : pyarg) : result bool :=
  match a with
  | ArgManager => Ok true
  | ArgStr s => Ok (negb (String.eqb s ""))
  | ArgBool b => Ok b
  | ArgSeries _ _ => Raise ValueError       (* the truth value of a Series is ambiguous *)
  end.

(** An element of the batch request of [_batch_update_entities]:
    [{'name':i, 'entityType':etype, 'operations': [{'attributeName':..., 'op':'RemoveAttribute'}]}] *)
Record batch_entry := mk_batch_entry {
  be_name : string;
  be_entity_type : pyarg;
  be_remove : string
}.

(** [delete_entity_attributes(self, delete_s, etype, delete_files=False)]:
    the outcome, the batch requests sent (the batch call answers
    [batch_status]) and the paths handed to [gs_delete(delete_s)]. The
    name [gs_delete] is not bound in wmanager.py; the call is a parameter.
    Only a Series has [.name] and [.index]. *)
Definition delete_entity_attributes (gs_delete : list string -> result unit) (batch_status : Z)
    (delete_s etype delete_files : pyarg)
  : result unit * list (list batch_entry) * list (list string) :=
  match delete_s with
  | ArgSeries name items =>
      let attrs := map (fun i => mk_batch_entry i etype name) (map fst items) in
      if Z.eqb batch_status 204 then
        match truthy delete_files with
        | Ok true => (gs_delete (map snd items), [attrs], [map snd items])
        | Ok false => (Ok tt, [attrs], [])
        | Raise e => (Raise e, [attrs], [])
        end
      else (Ok tt, [attrs], [])                                    (* print(r.text) *)
  | _ => (Raise AttributeError, [], [])
  end.

(** A call of the bound method [self.delete_entity_attributes]: it takes two or
    three positional arguments after [self]; any other number raises
    TypeError before its body runs. *)
Definition call_delete_entity_attributes (gs_delete : list string -> result unit) (batch_status : Z)
    (args : list pyarg) : result unit * list (list batch_entry) * list (list string) :=
  match args with
  | [d; e] => delete_entity_attributes gs_delete batch_status d e (ArgBool false)
  | [d; e; f] => delete_entity_attributes gs_delete batch_status d e f
  | _ => (Raise TypeError, [], [])
  end.

(** [delete_sample_set_attributes(sample_set_id, attrs)]:
    [self.delete_entity_attributes(self, 'sample_set', sample_set_id, attrs)] *)
Definition delete_sample_set_attributes (gs_delete : list string -> result unit) (batch_status : Z)
    (sample_set_id : string) (attrs : pyarg) : result unit * list (list batch_entry) * list (list string) :=
  call_delete_entity_attributes gs_delete batch_status
    [ArgManager; ArgStr "sample_set"; ArgStr sample_set_id; attrs].

End Deletes.

(** ** Sets: [update_sample_set] and [update_pair_set] *)
Module Sets.

(** The value of an entity-reference list attribute:
    [{'itemsType': ..., 'items': [{'entityName': ..., 'entityType': ...}]}] *)
Record items_attr := mk_items_attr {
  items_type : string;
  items : list (string * string)            (* entityName, entityType *)
}.

(** The remote entities: (entity type, name) to attributes. *)
Abbreviation entity_store := (gmap (string * string) (gmap string items_attr)).

(** [firecloud.api.get_entity(namespace, workspace, etype, ename)]: 200
    and the entity's JSON when it exists, 404 otherwise. *)
Definition get_entity (store : entity_store) (etype ename : string) : response (gmap string items_attr) :=
  match store !! (etype, ename) with
  | Some attrs => mk_response 200 attrs
  | None => mk_response 404 ∅
  end.

(** The write requests: [update_entity(..., etype, ename, attrs)] with one
    AddUpdateAttribute operation, or [upload_entities] of a membership
    table (its header, then its rows). *)
Inductive request :=
  | UpdateEntity (etype ename attr : string) (value : items_attr)
  | UploadEntities (header : string * string) (rows : list (string * string)).

(** [update_sample_set(sample_set_id, sample_ids)]: the outcome and the
    requests sent; the upload answers [upload_status]; the answer of the
    update is only printed. *)
Definition update_sample_set (store : entity_store) (upload_status : Z)
    (sample_set_id : string) (sample_ids : list string) : result unit * list request :=
  let r := get_entity store "sample_set" sample_set_id in
  if Z.eqb (resp_status r) 200 then
    match resp_body r !! "samples" with                    (* r['attributes']['samples'] *)
    | None => (Raise KeyError, [])
    | Some items_dict =>
        (Ok tt, [UpdateEntity "sample_set" sample_set_id "samples"
                   (mk_items_attr (items_type items_dict) (map (fun i => (i, "sample")) sample_ids))])
    end
  else
    ((if Z.eqb upload_status 200 then Ok tt else Raise AssertionError),
     [UploadEntities ("membership:sample_set_id", "sample_id")
                     (map (fun i => (sample_set_id, i)) sample_ids)]).

(** [update_pair_set(pair_set_id, pair_ids)]; its lookup asks for the
    entity type 'pair_set_id'. *)
Definition update_pair_set (store : entity_store) (upload_status : Z)
    (pair_set_id : string) (pair_ids : list string) : result unit * list request :=
  let r := get_entity store "pair_set_id" pair_set_id in
  if Z.eqb (resp_status r) 200 then
    match resp_body r !! "pairs" with                      (* r['attributes']['pairs'] *)
    | None => (Raise KeyError, [])
    | Some items_dict =>
        (Ok tt, [UpdateEntity "pair_set" pair_set_id "pairs"
                   (mk_items_attr (items_type items_dict) (map (fun i => (i, "pair")) pair_ids))])
    end
  else
    ((if Z.eqb upload_status 200 then Ok tt else Raise AssertionError),
     [UploadEntities ("membership:pair_set_id", "pair_id")
                     (map (fun i => (pair_set_id, i)) pair_ids)]).

(** A workspace with a sample set SS1 and a pair set PS1. *)
Definition demo_store : entity_store :=
  <[("sample_set", "SS1") := <["samples" := mk_items_attr "EntityReference" [("S1", "sample")]]> ∅]>
  (<[("pair_set", "PS1") := <["pairs" := mk_items_attr "EntityReference" [("P1", "pair")]]> ∅]> ∅).

End Sets.

(** * Proofs *)

Module EntityStatusProofs.
Import EntityStatus.

Lemma update_entity_ts s d w e :
  ts_of (update_entity s d w) e =
  if decide (e = wf_entity w) then Some (omax (ts_of d e) (sub_date s)) else ts_of d e.
Proof.
  unfold update_entity, ts_of.
  destruct (d !! wf_entity w) as [r|] eqn:Hd.
  - destruct (Z.ltb_spec (rec_timestamp r) (sub_date s)).
    + case_decide; subst.
      * rewrite lookup_insert_eq, Hd. simpl. f_equal. lia.
      * rewrite lookup_insert_ne by congruence. done.
    + case_decide; subst; [|done].
      rewrite Hd. simpl. f_equal. lia.
  - case_decide; subst.
    + rewrite lookup_insert_eq, Hd. done.
    + rewrite lookup_insert_ne by congruence. done.
Qed.

Lemma omax_idem o t : omax (Some (omax o t)) t = omax o t.
Proof. destruct o; simpl; lia. Qed.

Lemma fold_update_ts s ws d e :
  ts_of (fold_left (update_entity s) ws d) e =
  if bool_decide (e ∈ map wf_entity ws)
  then Some (omax (ts_of d e) (sub_date s)) else ts_of d e.
Proof.
  revert d. induction ws as [|w ws IH]; intros d; cbn [fold_left map].
  - case_bool_decide as Hn; [by apply not_elem_of_nil in Hn|done].
  - rewrite IH, update_entity_ts.
    repeat (case_bool_decide || case_decide); subst;
      try rewrite omax_idem; try done; exfalso; set_solver.
Qed.

Lemma scan_ts api etype subs d d' e :
  scan api etype subs d = Ok d' ->
  ts_of d' e = latest_ts api etype e subs (ts_of d e).
Proof.
  unfold latest_ts. revert d.
  induction subs as [|s subs IH]; intros d Hscan; cbn [scan fold_left] in *.
  - by injection Hscan as ->.
  - destruct (String.eqb (sub_entity_type s) etype) eqn:Ht; cbn [negb] in Hscan.
    + unfold get_submission in Hscan.
      destruct (api (sub_id s)) as [ws|] eqn:Hapi; cbn [res_bind] in Hscan; [|discriminate].
      rewrite (IH _ Hscan), fold_update_ts.
      replace (references api etype e s) with (bool_decide (e ∈ map wf_entity ws)); [done|].
      unfold references. by rewrite Ht, Hapi.
    + replace (references api etype e s) with false; [by apply IH|].
      unfold references. by rewrite Ht.
Qed.

Lemma latest_ts_bound api etype e subs o t :
  latest_ts api etype e subs o = Some t ->
  (forall a, o = Some a -> (a <= t)%Z) /\
  (forall s, s ∈ subs -> references api etype e s = true -> (sub_date s <= t)%Z) /\
  (o = Some t \/ exists s, s ∈ subs /\ references api etype e s = true /\ sub_date s = t).
Proof.
  unfold latest_ts. revert o. induction subs as [|s subs IH]; intros o H; simpl in H.
  - subst. split; [intros a Ha; injection Ha; lia|]. split; [|by left].
    intros s Hs. by apply not_elem_of_nil in Hs.
  - destruct (references api etype e s) eqn:Hr.
    + destruct (IH _ H) as (H1 & H2 & H3).
      specialize (H1 _ eq_refl).
      split; [intros a ->; simpl in H1; lia|]. split.
      * intros s' Hs' Hr'. apply elem_of_cons in Hs' as [->|Hs']; [|by apply H2].
        destruct o; simpl in H1; lia.
      * destruct H3 as [H3|(s' & Hs' & Hr' & Hd)].
        -- injection H3 as H3. destruct o as [a|]; simpl in H3.
           ++ destruct (Z.max_spec a (sub_date s)) as [[_ Hm]|[_ Hm]].
              ** right. exists s. split; [left|]. split; [done|lia].
              ** left. f_equal. lia.
           ++ right. exists s. split; [left|]. done.
        -- right. exists s'. split; [by right|done].
    + destruct (IH _ H) as (H1 & H2 & H3).
      split; [done|]. split.
      * intros s' Hs' Hr'. apply elem_of_cons in Hs' as [->|Hs']; [congruence|by apply H2].
      * destruct H3 as [H3|(s' & Hs' & Hr' & Hd)]; [by left|].
        right. exists s'. split; [by right|done].
Qed.

Lemma latest_ts_some api etype e subs o s :
  s ∈ subs -> references api etype e s = true ->
  exists t, latest_ts api etype e subs o = Some t.
Proof.
  unfold latest_ts. revert o. induction subs as [|s' subs IH]; intros o Hs Hr; simpl.
  - by apply not_elem_of_nil in Hs.
  - apply elem_of_cons in Hs as [<-|Hs].
    + rewrite Hr. clear IH. generalize (omax o (sub_date s)).
      induction subs as [|s'' subs IH']; intros z; simpl; [by eexists|].
      destruct (references api etype e s''); apply IH'.
    + by apply IH.
Qed.

Lemma fold_update_keeps s ws d e r :
  d !! e = Some r -> (sub_date s <= rec_timestamp r)%Z ->
  fold_left (update_entity s) ws d !! e = Some r.
Proof.
  revert d. induction ws as [|w ws IH]; intros d Hd Hle; cbn [fold_left]; [done|].
  apply IH; [|done]. unfold update_entity.
  destruct (decide (wf_entity w = e)) as [<-|Hne].
  - rewrite Hd. destruct (Z.ltb_spec (rec_timestamp r) (sub_date s)); [lia|done].
  - destruct (d !! wf_entity w) as [r'|];
      [destruct (Z.ltb (rec_timestamp r') (sub_date s))|];
      rewrite ?lookup_insert_ne by done; done.
Qed.

Lemma fold_update_first s ws d e :
  d !! e = None -> e ∈ map wf_entity ws ->
  exists r, fold_left (update_entity s) ws d !! e = Some r /\
    rec_submission_id r = sub_id s /\ rec_timestamp r = sub_date s.
Proof.
  revert d. induction ws as [|w ws IH]; intros d Hd Hin; cbn [fold_left map] in *.
  - by apply not_elem_of_nil in Hin.
  - destruct (decide (wf_entity w = e)) as [<-|Hne].
    + exists (new_record s w). split; [|done].
      apply fold_update_keeps; [|simpl; lia].
      unfold update_entity. rewrite Hd. apply lookup_insert_eq.
    + apply elem_of_cons in Hin as [Hin|Hin]; [congruence|].
      apply IH; [|done]. unfold update_entity.
      destruct (d !! wf_entity w) as [r'|];
        [destruct (Z.ltb (rec_timestamp r') (sub_date s))|];
        rewrite ?lookup_insert_ne by done; done.
Qed.

Lemma scan_none_raises api etype subs s :
  s ∈ subs -> String.eqb (sub_entity_type s) etype = true -> api (sub_id s) = None ->
  forall d, scan api etype subs d = Raise AssertionError.
Proof.
  intros Hs Ht Hapi. induction subs as [|s' subs IH]; intros d.
  - by apply not_elem_of_nil in Hs.
  - cbn [scan]. apply elem_of_cons in Hs as [<-|Hs].
    + rewrite Ht. cbn [negb]. unfold get_submission. by rewrite Hapi.
    + destruct (String.eqb (sub_entity_type s') etype); cbn [negb]; [|by apply IH].
      unfold get_submission. destruct (api (sub_id s')); cbn [res_bind]; [by apply IH|done].
Qed.

(** C3: every entity referenced by a type-matching submission has exactly
    one record in the result of [get_entity_status]; its timestamp is the
    maximum submission timestamp among the matching submissions referencing
    it. An existing record is replaced only by a strictly greater
    timestamp. *)
Theorem get_entity_status_latest api etype subs d e :
  (forall s w (d0 : gmap string status_record) r0,
     d0 !! wf_entity w = Some r0 -> ~ (rec_timestamp r0 < sub_date s)%Z ->
     update_entity s d0 w = d0) /\
  (get_entity_status api etype subs = Ok d ->
   (exists s, s ∈ subs /\ references api etype e s = true) ->
   exists r, d !! e = Some r /\
     (forall s, s ∈ subs -> references api etype e s = true ->
        (sub_date s <= rec_timestamp r)%Z) /\
     (exists s, s ∈ subs /\ references api etype e s = true /\
        sub_date s = rec_timestamp r)).
Proof.
  split.
  - intros s w d0 r0 Hd Hnlt. unfold update_entity. rewrite Hd.
    destruct (Z.ltb_spec (rec_timestamp r0) (sub_date s)); [lia|done].
  - intros Hres (s & Hs & Hr).
    pose proof (scan_ts _ _ _ _ _ e Hres) as Hts.
    destruct (latest_ts_some api etype e subs (ts_of ∅ e) s Hs Hr) as [t Ht].
    rewrite Ht in Hts. unfold ts_of in Hts.
    destruct (d !! e) as [r|] eqn:Hd; [|discriminate]. injection Hts as Hts.
    exists r. split; [done|].
    destruct (latest_ts_bound _ _ _ _ _ _ Ht) as (_ & Hb & Ha).
    rewrite Hts. split; [done|].
    destruct Ha as [Ha|Ha]; [discriminate|done].
Qed.

Lemma get_entity_status_latest_witness :
  exists r, demo_status !! "S1" = Some r /\
     (forall s, s ∈ demo_subs -> references demo_api "sample" "S1" s = true ->
        (sub_date s <= rec_timestamp r)%Z) /\
     (exists s, s ∈ demo_subs /\ references demo_api "sample" "S1" s = true /\
        sub_date s = rec_timestamp r).
Proof.
  apply (proj2 (get_entity_status_latest demo_api "sample" demo_subs demo_status "S1")).
  - vm_compute. reflexivity.
  - exists demo_s1. split; [by left | vm_compute; reflexivity].
Defined.

(** C8: a failed detail fetch of any type-matching submission aborts the
    whole call with the [AssertionError] of [get_submission]: no partial
    mapping is returned. *)
Theorem get_entity_status_fetch_failure api etype subs s :
  s ∈ subs -> String.eqb (sub_entity_type s) etype = true -> api (sub_id s) = None ->
  get_entity_status api etype subs = Raise AssertionError.
Proof. intros Hs Ht Hapi. by apply (scan_none_raises _ _ _ s). Qed.

Lemma get_entity_status_fetch_failure_witness :
  get_entity_status demo_api "sample" [demo_s1; demo_s5; demo_s2] = Raise AssertionError.
Proof.
  apply (get_entity_status_fetch_failure _ _ _ demo_s5);
    [by right; left | vm_compute; reflexivity | vm_compute; reflexivity].
Defined.

Lemma fold_update_notin s ws d e :
  e ∉ map wf_entity ws -> fold_left (update_entity s) ws d !! e = d !! e.
Proof.
  revert d. induction ws as [|w ws IH]; intros d Hn; cbn [fold_left map] in *; [done|].
  rewrite IH by set_solver. unfold update_entity.
  assert (wf_entity w <> e) by set_solver.
  destruct (d !! wf_entity w) as [r'|];
    [destruct (Z.ltb (rec_timestamp r') (sub_date s))|];
    rewrite ?lookup_insert_ne by done; done.
Qed.

Lemma fold_update_newer s ws d e :
  (forall r, d !! e = Some r -> (rec_timestamp r < sub_date s)%Z) ->
  e ∈ map wf_entity ws ->
  exists r, fold_left (update_entity s) ws d !! e = Some r /\
    rec_submission_id r = sub_id s /\ rec_timestamp r = sub_date s.
Proof.
  revert d. induction ws as [|w ws IH]; intros d Hd Hin; cbn [fold_left map] in *.
  - by apply not_elem_of_nil in Hin.
  - destruct (decide (wf_entity w = e)) as [<-|Hne].
    + exists (new_record s w). split; [|done].
      apply fold_update_keeps; [|simpl; lia].
      unfold update_entity. destruct (d !! wf_entity w) as [r'|] eqn:Hr'.
      * specialize (Hd r' eq_refl). destruct (Z.ltb_spec (rec_timestamp r') (sub_date s)); [|lia].
        apply lookup_insert_eq.
      * apply lookup_insert_eq.
    + apply elem_of_cons in Hin as [Hin|Hin]; [congruence|].
      apply IH; [|done]. intros r. unfold update_entity.
      destruct (d !! wf_entity w) as [r'|];
        [destruct (Z.ltb (rec_timestamp r') (sub_date s))|];
        rewrite ?lookup_insert_ne by done; apply Hd.
Qed.

Lemma scan_app api etype l1 l2 d :
  scan api etype (l1 ++ l2) d = res_bind (scan api etype l1 d) (scan api etype l2).
Proof.
  revert d. induction l1 as [|s l1 IH]; intros d; [done|].
  cbn [app scan]. destruct (negb (String.eqb (sub_entity_type s) etype)); [apply IH|].
  destruct (get_submission api (sub_id s)); cbn [res_bind]; [apply IH|done].
Qed.

Lemma scan_keeps api etype e l d d' r :
  scan api etype l d = Ok d' -> d !! e = Some r ->
  (forall s, s ∈ l -> references api etype e s = true -> (sub_date s <= rec_timestamp r)%Z) ->
  d' !! e = Some r.
Proof.
  revert d. induction l as [|s l IH]; intros d Hscan Hd Hle; cbn [scan] in Hscan.
  - by injection Hscan as <-.
  - destruct (String.eqb (sub_entity_type s) etype) eqn:Ht; cbn [negb] in Hscan.
    + unfold get_submission in Hscan.
      destruct (api (sub_id s)) as [ws|] eqn:Hapi; cbn [res_bind] in Hscan; [|discriminate].
      apply (IH _ Hscan); [|intros s' Hs'; apply Hle; by right].
      destruct (decide (e ∈ map wf_entity ws)) as [Hin|Hn].
      * apply fold_update_keeps; [done|]. apply Hle; [by left|].
        unfold references. rewrite Ht, Hapi. by apply bool_decide_eq_true.
      * by rewrite fold_update_notin.
    + apply (IH _ Hscan); [done|]. intros s' Hs'. apply Hle. by right.
Qed.

(** C5 (as amended): when several type-matching submissions reference an
    entity, the record kept is that of the FIRST one, in list order, that
    carries the greatest timestamp: any submission processed later with an
    equal timestamp never replaces it, since a record is replaced only by
    a strictly greater timestamp. Other submissions may come before, between
    and after. *)
Theorem get_entity_status_tie_first_seen api etype subs l1 s l2 e d :
  get_entity_status api etype subs = Ok d ->
  subs = l1 ++ s :: l2 ->
  references api etype e s = true ->
  (forall s', s' ∈ l1 -> references api etype e s' = true -> (sub_date s' < sub_date s)%Z) ->
  (forall s', s' ∈ l2 -> references api etype e s' = true -> (sub_date s' <= sub_date s)%Z) ->
  rec_submission_id <$> d !! e = Some (sub_id s).
Proof.
  intros Hres -> Hr Hbefore Hafter.
  unfold get_entity_status in Hres. rewrite scan_app in Hres.
  destruct (scan api etype l1 ∅) as [d1|ex] eqn:H1; cbn [res_bind] in Hres; [|discriminate].
  assert (Hd1 : forall r, d1 !! e = Some r -> (rec_timestamp r < sub_date s)%Z).
  { intros r Hr1. pose proof (scan_ts _ _ _ _ _ e H1) as Hts.
    unfold ts_of in Hts. rewrite Hr1, lookup_empty in Hts. cbn in Hts.
    destruct (latest_ts_bound _ _ _ _ _ _ (eq_sym Hts)) as (_ & _ & [Hn|(s' & Hs' & Hr' & Hd')]);
      [discriminate|]. rewrite <- Hd'. by apply Hbefore. }
  unfold references in Hr. apply andb_prop in Hr as [Ht Hin].
  destruct (api (sub_id s)) as [ws|] eqn:Hapi; [|discriminate].
  apply bool_decide_eq_true in Hin.
  cbn [scan] in Hres. rewrite Ht in Hres. cbn [negb] in Hres.
  unfold get_submission in Hres. rewrite Hapi in Hres. cbn [res_bind] in Hres.
  destruct (fold_update_newer s ws d1 e Hd1 Hin) as (r & Hrs & Hid & Hts).
  rewrite (scan_keeps _ _ _ _ _ _ r Hres Hrs); [simpl; by rewrite Hid|].
  intros s' Hs' Hr'. rewrite Hts. by apply Hafter.
Qed.

(** C5 as stated is false: sub2 and sub3 both carry timestamp 200 for
    entity S1 and sub3 is processed last, yet the record kept is not
    sub3's (it is sub2's). *)
Lemma get_entity_status_tie_not_last_seen :
  kept_submission (get_entity_status demo_api "sample" [demo_s2; demo_s3]) "S1"
    <> Some (sub_id demo_s3).
Proof. vm_compute. congruence. Qed.

Lemma get_entity_status_tie_first_seen_witness :
  rec_submission_id <$> demo_status !! "S1" = Some (sub_id demo_s2).
Proof.
  apply (get_entity_status_tie_first_seen demo_api "sample" demo_subs [demo_s1] demo_s2
           [demo_s4; demo_s3]).
  - vm_compute. reflexivity.
  - reflexivity.
  - vm_compute. reflexivity.
  - intros s' Hs' _. apply list_elem_of_singleton in Hs' as ->. vm_compute. reflexivity.
  - intros s' Hs' Hr'. apply elem_of_cons in Hs' as [->|Hs'];
      [vm_compute in Hr'; discriminate|].
    apply list_elem_of_singleton in Hs' as ->. cbn. lia.
Defined.

End EntityStatusProofs.

Module StatsProofs.
Import Stats.
Local Open Scope Q_scope.

Lemma dict_get_set k k' v d :
  dict_get k (dict_set k' v d) = if Z.eqb k' k then Some v else dict_get k d.
Proof.
  induction d as [|[k0 v0] d IH]; cbn [dict_set dict_get].
  - by destruct (Z.eqb k' k).
  - destruct (Z.eqb_spec k' k0) as [<-|Hne]; cbn [dict_get].
    + by destruct (Z.eqb k' k).
    + rewrite IH. destruct (Z.eqb_spec k0 k), (Z.eqb_spec k' k); subst; congruence.
Qed.

Lemma dict_mem_get k d :
  dict_mem k d = match dict_get k d with Some _ => true | None => false end.
Proof.
  induction d as [|[k0 v0] d IH]; [done|]. cbn [dict_mem existsb dict_get fst] in *.
  unfold dict_mem in IH. rewrite IH. by destruct (Z.eqb k0 k).
Qed.

Lemma filterb_app {A} (f : A -> bool) (l1 l2 : list A) :
  List.filter f (l1 ++ l2) = List.filter f l1 ++ List.filter f l2.
Proof. induction l1 as [|x l1 IH]; [done|]. simpl. rewrite IH. by destruct (f x). Qed.

Lemma last_with_shard_snoc l a k :
  last_with_shard (l ++ [a]) k =
  if bool_decide (at_shard a = Some k) then Some a else last_with_shard l k.
Proof.
  unfold last_with_shard. rewrite filterb_app. cbn [List.filter].
  case_bool_decide.
  - by rewrite last_snoc.
  - by rewrite app_nil_r.
Qed.

Lemma existsb_same_shard j k prefix :
  at_shard j = Some k ->
  existsb (same_shard j) prefix =
  match last_with_shard prefix k with Some _ => true | None => false end.
Proof.
  intros Hj. induction prefix as [|b prefix IH] using rev_ind; [done|].
  rewrite existsb_app, last_with_shard_snoc, IH. cbn [existsb].
  unfold same_shard. rewrite Hj.
  case_bool_decide as H1; case_bool_decide as H2; try congruence.
  - destruct (last_with_shard prefix k); done.
  - destruct (last_with_shard prefix k); done.
Qed.

Lemma scatter_loop_spec js prefix succ pre succ' pre' :
  scatter_loop js succ pre = Ok (succ', pre') ->
  (forall k, dict_get k succ = last_with_shard prefix k) ->
  (forall k, dict_get k succ' = last_with_shard (prefix ++ js) k) /\
  pre' = pre ++ map snd (List.filter (fun p => is_retry (prefix ++ js) p.1 p.2)
                           (zip (seq (length prefix) (length js)) js)).
Proof.
  revert prefix succ pre.
  induction js as [|j js IH]; intros prefix succ pre Hloop Hinv; cbn [scatter_loop] in Hloop.
  - injection Hloop as <- <-. rewrite !app_nil_r. split; [done|].
    simpl. by rewrite ?app_nil_r.
  - destruct (at_shard j) as [k|] eqn:Hk; [|discriminate].
    destruct (IH (prefix ++ [j]) _ _ Hloop) as [H1 H2].
    { intros k'. rewrite dict_get_set, last_with_shard_snoc, Hk, Hinv.
      destruct (Z.eqb_spec k k'); case_bool_decide; congruence. }
    rewrite <- app_assoc in H1, H2. cbn [app] in H1, H2.
    split; [done|]. rewrite H2, length_app. cbn [length]. rewrite Nat.add_1_r.
    cbn [length seq zip List.filter fst snd].
    unfold is_retry at 2. rewrite take_app_length.
    rewrite (existsb_same_shard j k prefix Hk), <- Hinv, <- dict_mem_get.
    destruct (dict_mem k succ); cbn [map snd]; [by rewrite <- app_assoc|done].
Qed.

Lemma task_stats_ok g calls r :
  task_stats g calls = Ok r ->
  exists succ pre, resolve_shards calls = Ok (succ, pre) /\
    time_h r = sumQ (map (fun j => workflow_time j / 3600) (map snd succ)) -
               sumQ (map (fun q => (ev_end q - ev_start q) / 3600)
                       (List.filter is_quota_wait (flat_map at_events (map snd succ)))) /\
    total_time_h r = sumQ (map (fun a => workflow_time a / 3600) calls) -
               sumQ (map (fun q => (ev_end q - ev_start q) / 3600)
                       (List.filter is_quota_wait (flat_map at_events (map snd succ)))) /\
    (cache_hit calls = true -> est_cost r = None /\ machine_type r = None) /\
    (cache_hit calls = false -> pre <> [] ->
       (exists a0 rest, calls = a0 :: rest /\ at_preemptible a0 = true) /\
       max_preempt_time_h r = Some (maxQ (map workflow_time pre) / 3600)).
Proof.
  intros H. unfold task_stats in H.
  destruct (resolve_shards calls) as [[succ pre]|e] eqn:Hr;
    cbn [res_bind fst snd] in H; [|discriminate].
  exists succ, pre. split; [done|].
  destruct (cache_hit calls) eqn:Hc.
  - injection H as <-. cbn. repeat split; intros; congruence.
  - destruct (bool_decide (pre = [])) eqn:Hb; cbn [res_bind] in H.
    + apply bool_decide_eq_true in Hb.
      injection H as <-. cbn. repeat split; intros; congruence.
    + destruct calls as [|a0 rest]; cbn [py_head map res_bind] in H; [discriminate|].
      destruct (at_preemptible a0) eqn:Hp; cbn [py_assert res_bind] in H; [|discriminate].
      injection H as <-. cbn. repeat split; intros; try congruence.
      by exists a0, rest.
Qed.

Lemma sumQ_app l1 l2 : sumQ (l1 ++ l2) == sumQ l1 + sumQ l2.
Proof.
  induction l1 as [|x l1 IH]; cbn [app sumQ fold_right]; unfold sumQ in *; [ring|].
  cbn [fold_right]. rewrite IH. ring.
Qed.

Lemma sumQ_map_sub {A} (f g : A -> Q) l :
  sumQ (map (fun a => f a - g a) l) == sumQ (map f l) - sumQ (map g l).
Proof.
  induction l as [|x l IH]; unfold sumQ in *; cbn [map fold_right]; [ring|].
  rewrite IH. ring.
Qed.

Lemma sumQ_quota_flat l :
  sumQ (map (fun q => (ev_end q - ev_start q) / 3600)
          (List.filter is_quota_wait (flat_map at_events l))) ==
  sumQ (map quota_hours l).
Proof.
  induction l as [|m l IH]; [reflexivity|].
  cbn [flat_map map]. rewrite filterb_app, map_app, sumQ_app, IH.
  unfold sumQ at 3. cbn [fold_right]. unfold quota_hours. reflexivity.
Qed.

(** C1 (as amended): for a scattered task (its first attempt carries a
    shard index) whose shard resolution succeeds, the accepted attempt for
    every shard index is the LAST attempt carrying that index: each later
    attempt overwrites the entry of [successes]. *)
Theorem resolve_shards_last_wins calls succ pre a0 rest k0 :
  calls = a0 :: rest -> at_shard a0 = Some k0 ->
  resolve_shards calls = Ok (succ, pre) ->
  forall k, accepted calls k = last_with_shard calls k.
Proof.
  intros Hc Hk Hr k. unfold accepted. rewrite Hr.
  assert (Hloop : scatter_loop calls [] [] = Ok (succ, pre)).
  { rewrite <- Hr. subst calls. cbn [resolve_shards]. by rewrite Hk. }
  by destruct (scatter_loop_spec calls [] [] [] succ pre Hloop) as [H1 _].
Qed.

Lemma resolve_shards_last_wins_witness :
  last_with_shard demo_shard_calls 0%Z = Some demo_p3 /\
  (forall k, accepted demo_shard_calls k = last_with_shard demo_shard_calls k).
Proof.
  split; [reflexivity|].
  apply (resolve_shards_last_wins demo_shard_calls [(0%Z, demo_p3)] [demo_p2; demo_p3]
           demo_p1 [demo_p2; demo_p3] 0%Z); reflexivity.
Defined.

(** C1 as stated is false: with three attempts of shard 0 at positions
    0 < 1 < 2, the accepted attempt is not the first one (it is the third). *)
Lemma accepted_not_first_attempt :
  accepted demo_shard_calls 0%Z <> Some demo_p1.
Proof.
  intros H. apply (f_equal (option_map at_job_id)) in H. vm_compute in H. congruence.
Qed.

(** C7: an accepted attempt contributes its wall-clock hours minus the hours
    of its 'waiting for quota' events to [time_h]; the same quota total is
    subtracted from the hours of all attempts in [total_time_h]. *)
Theorem task_stats_quota_subtracted g calls r succ pre :
  task_stats g calls = Ok r -> resolve_shards calls = Ok (succ, pre) ->
  time_h r == sumQ (map (fun a => workflow_time a / 3600 - quota_hours a) (map snd succ)) /\
  total_time_h r == sumQ (map (fun a => workflow_time a / 3600) calls) -
                    sumQ (map quota_hours (map snd succ)).
Proof.
  intros Hts Hr.
  destruct (task_stats_ok _ _ _ Hts) as (succ' & pre' & Hr' & Ht & Htot & _).
  rewrite Hr in Hr'. injection Hr' as <- <-.
  rewrite Ht, Htot, sumQ_map_sub, !sumQ_quota_flat. split; reflexivity.
Qed.

(** A single accepted attempt of 2.0 hours with a 0.5 hour quota wait
    contributes 1.5 hours. *)
Lemma task_stats_quota_subtracted_witness :
  match task_stats demo_cost [demo_quota_attempt] with
  | Ok r => time_h r == 3 # 2
  | Raise _ => False
  end.
Proof.
  destruct (task_stats demo_cost [demo_quota_attempt]) as [r|e] eqn:Hts;
    [|vm_compute in Hts; discriminate].
  destruct (task_stats_quota_subtracted demo_cost [demo_quota_attempt] r
              [(0%Z, demo_quota_attempt)] [] Hts) as [H _]; [reflexivity|].
  rewrite H. vm_compute. reflexivity.
Defined.

Lemma map_result_ok {A B} (f : A -> result B) l ys x :
  map_result f l = Ok ys -> x ∈ l -> exists y, f x = Ok y.
Proof.
  revert ys. induction l as [|x' l IH]; intros ys Hm Hx; [by apply not_elem_of_nil in Hx|].
  cbn [map_result] in Hm. destruct (f x') as [y|e] eqn:Hf; cbn [res_bind] in Hm; [|discriminate].
  destruct (map_result f l) as [ys'|e] eqn:Hl; cbn [res_bind] in Hm; [|discriminate].
  apply elem_of_cons in Hx as [->|Hx]; [by exists y|]. by apply (IH ys').
Qed.

(** C10: a task that is not served from the call cache and has at least
    one preemption fails the assertion [assert was_preemptible[0]] when its
    first attempt is not preemptible; hence, whenever the rows of an entity
    are computed, every such task had a preemptible first attempt. *)
Theorem task_stats_preemptible_assert g :
  (forall calls a0 rest succ pre,
     calls = a0 :: rest -> cache_hit calls = false ->
     resolve_shards calls = Ok (succ, pre) -> pre <> [] ->
     at_preemptible a0 = false ->
     task_stats g calls = Raise AssertionError) /\
  (forall tasks rows, entity_rows g tasks = Ok rows ->
     forall calls succ pre, calls ∈ tasks -> cache_hit calls = false ->
     resolve_shards calls = Ok (succ, pre) -> pre <> [] ->
     exists a0 rest, calls = a0 :: rest /\ at_preemptible a0 = true).
Proof.
  split.
  - intros calls a0 rest succ pre -> Hc Hr Hne Hp.
    unfold task_stats. rewrite Hr. cbn [res_bind fst snd]. rewrite Hc.
    rewrite bool_decide_eq_false_2 by done.
    cbn [res_bind py_head map]. by rewrite Hp.
  - intros tasks rows Hrows calls succ pre Hin Hc Hr Hne.
    destruct (map_result_ok _ _ _ _ Hrows Hin) as [r Hts].
    destruct (task_stats_ok _ _ _ Hts) as (succ' & pre' & Hr' & _ & _ & _ & Hpre).
    rewrite Hr in Hr'. injection Hr' as <- <-.
    by apply Hpre.
Qed.

Lemma task_stats_preemptible_assert_witness :
  task_stats demo_cost demo_nonpreemptible_calls = Raise AssertionError.
Proof.
  destruct (task_stats_preemptible_assert demo_cost) as [H _].
  apply (H demo_nonpreemptible_calls demo_np1 [demo_np2] [(0%Z, demo_np2)] [demo_np1]);
    [reflexivity | reflexivity | reflexivity | discriminate | reflexivity].
Defined.

Lemma cpu_hours_sum_app l1 l2 c :
  cpu_hours_sum (l1 ++ l2) = Ok c ->
  exists c1 c2, cpu_hours_sum l1 = Ok c1 /\ cpu_hours_sum l2 = Ok c2 /\ c == c1 + c2.
Proof.
  revert c. induction l1 as [|r l1 IH]; intros c H; cbn [app cpu_hours_sum] in *.
  - exists 0, c. repeat split; [done|ring].
  - destruct (core_count (machine_type r)) as [n|e]; cbn [res_bind] in *; [|discriminate].
    destruct (cpu_hours_sum (l1 ++ l2)) as [c'|e] eqn:Hc'; cbn [res_bind] in H; [|discriminate].
    injection H as <-. destruct (IH c' eq_refl) as (c1 & c2 & H1 & H2 & H3).
    exists (total_time_h r * inject_Z n + c1), c2. rewrite H1. cbn [res_bind].
    repeat split; [done|]. rewrite H3. ring.
Qed.

Lemma cpu_hours_sum_app_ok l1 l2 c1 c2 :
  cpu_hours_sum l1 = Ok c1 -> cpu_hours_sum l2 = Ok c2 ->
  exists c, cpu_hours_sum (l1 ++ l2) = Ok c /\ c == c1 + c2.
Proof.
  revert c1. induction l1 as [|r l1 IH]; intros c1 H1 H2; cbn [app cpu_hours_sum] in *.
  - injection H1 as <-. exists c2. split; [done|ring].
  - destruct (core_count (machine_type r)) as [n|e]; cbn [res_bind] in *; [|discriminate].
    destruct (cpu_hours_sum l1) as [c'|e]; cbn [res_bind] in H1; [|discriminate].
    injection H1 as <-. destruct (IH c' eq_refl H2) as (c & Hc & Heq).
    rewrite Hc. cbn [res_bind]. eexists. split; [done|]. rewrite Heq. ring.
Qed.

(** C2 (as amended): a task with a call-cache hit contributes nothing to
    the entity's [est_cost] (its cell is left NaN), but it still contributes
    its [total_time_h] to [cpu_hours], counted with one core because its
    [machine_type] cell is left NaN. *)
Theorem cache_hit_task_rollup g calls r pre post est cpu :
  cache_hit calls = true -> task_stats g calls = Ok r ->
  entity_rollup (pre ++ r :: post) = Ok (est, cpu) ->
  exists est' cpu', entity_rollup (pre ++ post) = Ok (est', cpu') /\
    est == est' /\ cpu == cpu' + total_time_h r.
Proof.
  intros Hc Hts Hroll.
  destruct (task_stats_ok _ _ _ Hts) as (_ & _ & _ & _ & _ & Hcache & _).
  destruct (Hcache Hc) as [Hest Hmt].
  unfold entity_rollup in *.
  destruct (cpu_hours_sum (pre ++ r :: post)) as [c|e] eqn:Hcpu; cbn [res_bind] in Hroll;
    [|discriminate].
  injection Hroll as <- <-.
  destruct (cpu_hours_sum_app _ _ _ Hcpu) as (c1 & c2 & H1 & H2 & H3).
  cbn [cpu_hours_sum] in H2. rewrite Hmt in H2. cbn [core_count res_bind] in H2.
  destruct (cpu_hours_sum post) as [c3|e] eqn:Hpost; cbn [res_bind] in H2; [|discriminate].
  injection H2 as <-.
  destruct (cpu_hours_sum_app_ok _ _ _ _ H1 Hpost) as (c0 & Hc' & Heq).
  rewrite Hc'. cbn [res_bind]. do 2 eexists. split; [reflexivity|]. split.
  - rewrite !map_app, !sumQ_app. cbn [map]. unfold sumQ at 2 4. cbn [fold_right].
    rewrite Hest. cbn [nan_to_zero]. ring.
  - rewrite H3, Heq. ring.
Qed.

Lemma cache_hit_task_rollup_witness :
  match task_stats demo_cost [demo_cached_attempt] with
  | Ok r =>
      match entity_rollup [r] with
      | Ok (est, cpu) =>
          exists est' cpu', entity_rollup [] = Ok (est', cpu') /\
            est == est' /\ cpu == cpu' + total_time_h r
      | Raise _ => False
      end
  | Raise _ => False
  end.
Proof.
  destruct (task_stats demo_cost [demo_cached_attempt]) as [r|e] eqn:Hts;
    [|vm_compute in Hts; discriminate].
  destruct (entity_rollup [r]) as [[est cpu]|e] eqn:Hroll;
    [|vm_compute in Hts; injection Hts as <-; vm_compute in Hroll; discriminate].
  apply (cache_hit_task_rollup demo_cost [demo_cached_attempt] r [] [] est cpu);
    [reflexivity | exact Hts | exact Hroll].
Defined.

(** C2 as stated is false: an entity whose only task is a 1-hour attempt
    served from the call cache has [cpu_hours] 1, not the 0 of an entity
    without that task ([est_cost] stays 0). *)
Lemma cache_hit_counts_in_cpu_hours :
  entity_rollup [] = Ok (0, 0) /\
  match (r <- task_stats demo_cost [demo_cached_attempt] ;; entity_rollup [r]) with
  | Ok (est, cpu) => est == 0 /\ cpu == 1
  | Raise _ => False
  end.
Proof. vm_compute. split; [reflexivity|]. split; reflexivity. Qed.

(** C9: the retry loop of [get_stats] never exits, whatever the remote
    answers: [get_workflow_metadata] already returns the decoded dict, so
    the following [metadata.json()] raises AttributeError on every try and
    the bare [except] swallows it. No exception reaches the caller. *)
Theorem fetch_loop_never_exits fuel responses n :
  fetch_loop fuel responses n = None.
Proof.
  revert n. induction fuel as [|fuel IH]; intros n; [done|].
  cbn [fetch_loop]. unfold get_workflow_metadata.
  destruct (Z.eqb (resp_status (responses n)) 200); cbn [py_assert res_bind py_json]; apply IH.
Qed.

(** The first fetch succeeds, yet the loop does not exit. *)
Lemma fetch_loop_ok_response_still_loops :
  get_workflow_metadata (demo_ok_responses 0) = Ok (PyDict demo_metadata) /\
  forall fuel, fetch_loop fuel demo_ok_responses 0 = None.
Proof. split; [reflexivity|]. intros fuel. apply fetch_loop_never_exits. Qed.

End StatsProofs.

Module PatchProofs.
Import Patch.

(** A property of the threaded state that a computation keeps. *)
Section Stable.
Variable P : state -> Prop.

Definition stable {A} (m : M A) : Prop := forall st, P st -> P (m st).2.

Lemma stable_ret {A} (a : A) : stable (mret a).
Proof. intros st H. exact H. Qed.

Lemma stable_lift {A} (r : result A) : stable (lift r).
Proof. intros st H. exact H. Qed.

Lemma stable_bind {A B} (m : M A) (k : A -> M B) :
  stable m -> (forall a, stable (k a)) -> stable (mbind' m k).
Proof.
  intros Hm Hk st H. unfold mbind'.
  specialize (Hm st H). destruct (m st) as [[a|e] st']; simpl in *; auto.
  apply Hk. exact Hm.
Qed.

Lemma stable_bind_lift {A B} (r : result A) (k : A -> M B) :
  (forall a, r = Ok a -> stable (k a)) -> stable (mbind' (lift r) k).
Proof.
  intros Hk st H. unfold mbind', lift.
  destruct r as [a|e]; simpl; auto. apply Hk; auto.
Qed.

Lemma stable_try {A} (m h : M A) : stable m -> stable h -> stable (try_except m h).
Proof.
  intros Hm Hh st H. unfold try_except.
  specialize (Hm st H). destruct (m st) as [[a|e] st']; simpl in *; auto.
Qed.

Lemma stable_iter {A} (f : A -> M unit) (l : list A) :
  (forall a, stable (f a)) -> stable (m_iter f l).
Proof.
  intros Hf. induction l as [|x l IH]; simpl.
  - apply stable_ret.
  - apply stable_bind; auto.
Qed.

Lemma stable_except_handler : stable except_handler.
Proof. intros st H. unfold except_handler. destruct (st_metadata st); exact H. Qed.

End Stable.

Lemma andb_false_r' (b : bool) : b && false = false.
Proof. destruct b; reflexivity. Qed.

Create HintDb patch.
#[local] Hint Resolve stable_ret stable_lift stable_except_handler : patch.

(** Walk a computation built from the monad's combinators. *)
Ltac stab :=
  repeat (intros; cbn beta iota delta [negb]; match goal with
  | |- stable _ (mbind' (lift _) _) => apply stable_bind_lift
  | |- stable _ (mbind' _ _) => apply stable_bind
  | |- stable _ (m_iter _ _) => apply stable_iter
  | |- stable _ (try_except _ _) => apply stable_try
  | |- stable _ (if ?b && false then _ else _) => rewrite (andb_false_r' b)
  | |- stable _ (if ?b then _ else _) => destruct b
  | |- stable _ (match ?x with _ => _ end) => destruct x
  | _ => solve [eauto with patch]
  end).

(** *** Dry runs leave the store and the write log alone *)

Definition untouched (s0 : store) (w0 : list (string * attrs_arg)) (st : state) : Prop :=
  st_store st = s0 /\ st_writes st = w0.

Lemma untouched_set_metadata s0 w0 v : stable (untouched s0 w0) (set_metadata v).
Proof. intros st H. exact H. Qed.

Lemma untouched_incr_count s0 w0 k : stable (untouched s0 w0) (incr_count k).
Proof. intros st H. exact H. Qed.

#[local] Hint Resolve untouched_set_metadata untouched_incr_count : patch.

Lemma patch_sample_dry_run s0 w0 inp sid row :
  stable (untouched s0 w0) (patch_sample inp true sid row).
Proof. unfold patch_sample. stab. Qed.

Lemma sample_loop_dry_run s0 w0 inp incomplete :
  stable (untouched s0 w0) (sample_loop inp true incomplete).
Proof.
  induction incomplete as [|[sid row] rest IH]; simpl; stab.
  apply patch_sample_dry_run.
Qed.

Lemma patch_samples_dry_run s0 w0 inp :
  stable (untouched s0 w0) (patch_samples inp true).
Proof.
  intros st H. unfold patch_samples.
  destruct (incomplete_samples _ _) as [incomplete|e]; [|exact H].
  destruct (forallb _ _); [|exact H].
  pose proof (sample_loop_dry_run s0 w0 inp incomplete st H) as H'.
  destruct (sample_loop inp true incomplete st) as [[u|e] st']; exact H'.
Qed.

Lemma patch_sample_sets_dry_run s0 w0 inp :
  stable (untouched s0 w0) (patch_sample_sets inp true).
Proof.
  intros st H. unfold patch_sample_sets.
  destruct (negb _); [exact H|].
  destruct (existsb _ _); [|exact H].
  set (l := List.filter _ _). clearbody l.
  match goal with |- untouched _ _ (?m st).2 => revert st H; change (stable (untouched s0 w0) m) end.
  stab.
Qed.

(** C6: for every workspace state, [patch_attributes] with [dry_run=True]
    issues no attribute-update call and leaves the remote entity store as
    it was; so a second dry run on the store left by the first reports
    the same per-task counts (or raises the same exception). *)
Theorem patch_attributes_dry_run_readonly (inp : inputs) (entity : string) (s : store) :
  let '(r1, s1, w1) := patch_attributes inp true entity s in
  w1 = [] /\ s1 = s /\ (patch_attributes inp true entity s1).1.1 = r1.
Proof.
  assert (Hst : untouched s [] (entity_run inp true entity (initial_state s)).2).
  { assert (Hr : stable (untouched s []) (entity_run inp true entity)).
    { unfold entity_run.
      destruct (String.eqb entity "sample"); [apply patch_samples_dry_run|].
      destruct (String.eqb entity "sample_set"); [apply patch_sample_sets_dry_run|].
      apply stable_ret. }
    apply Hr. split; reflexivity. }
  unfold patch_attributes.
  destruct (entity_run inp true entity (initial_state s)) as [r st] eqn:E.
  destruct Hst as [Hs Hw]. simpl in Hs, Hw.
  split; [exact Hw|]. split; [exact Hs|].
  rewrite Hs, E. reflexivity.
Qed.

(** *** One failing sample aborts the batch *)

(** The local [metadata] is unbound or holds the dict returned by
    [get_workflow_metadata]. *)
Definition metadata_dict (st : state) : Prop :=
  match st_metadata st with
  | None => True
  | Some v => exists b, v = PyDict b
  end.

Lemma get_workflow_metadata_dict {A} (r : response A) v :
  get_workflow_metadata r = Ok v -> exists b, v = PyDict b.
Proof.
  unfold get_workflow_metadata, py_assert. simpl.
  destruct (Z.eqb _ _); simpl; intros H; inversion H; eauto.
Qed.

Lemma metadata_dict_set (r : response metadata) v :
  get_workflow_metadata r = Ok v -> stable metadata_dict (set_metadata v).
Proof.
  intros Hv st _. unfold metadata_dict. simpl.
  exact (get_workflow_metadata_dict r v Hv).
Qed.

Lemma metadata_dict_incr_count k : stable metadata_dict (incr_count k).
Proof. intros st H. exact H. Qed.

Lemma metadata_dict_update_sample sid attrs : stable metadata_dict (update_sample_attributes sid attrs).
Proof.
  intros st H. unfold update_sample_attributes.
  destruct (update_entity_attributes _ _); exact H.
Qed.

#[local] Hint Resolve metadata_dict_set metadata_dict_incr_count metadata_dict_update_sample : patch.

Lemma patch_sample_metadata_dict inp dry_run sid row :
  stable metadata_dict (patch_sample inp dry_run sid row).
Proof. unfold patch_sample. stab. Qed.

Lemma except_handler_raises st :
  metadata_dict st -> exists e, except_handler st = (Raise e, st).
Proof.
  unfold metadata_dict, except_handler.
  destruct (st_metadata st) as [v|]; [intros [b ->]|intros _]; eauto.
Qed.

(** C4: in the sample branch of [patch_attributes], when the [try] body
    for an incomplete sample raises (a failed metadata request, a missing
    key, a rejected update, ...), the [except] handler itself raises,
    because it calls [.json()] on [metadata], which is unbound or a dict.
    The loop therefore stops with that exception, in the state reached by
    the failed body: no later sample of the batch is processed. *)
Theorem sample_loop_failure_aborts (inp : inputs) (dry_run : bool) (sid : string)
    (row : gmap string string) (rest : list (string * gmap string string))
    (st st' : state) (e : py_exn) :
  metadata_dict st ->
  patch_sample inp dry_run sid row st = (Raise e, st') ->
  exists e', sample_loop inp dry_run ((sid, row) :: rest) st = (Raise e', st').
Proof.
  intros Hmd Hbody.
  pose proof (patch_sample_metadata_dict inp dry_run sid row st Hmd) as Hmd'.
  rewrite Hbody in Hmd'. simpl in Hmd'.
  destruct (except_handler_raises st' Hmd') as [e' He'].
  exists e'. simpl. unfold mbind', try_except. rewrite Hbody, He'. reflexivity.
Qed.

Lemma sample_loop_failure_aborts_witness :
  metadata_dict (initial_state demo_store) /\
  patch_sample demo_inputs false "S1" ∅ (initial_state demo_store)
    = (Raise AssertionError, initial_state demo_store) /\
  exists e', sample_loop demo_inputs false [("S1", ∅); ("S2", ∅)] (initial_state demo_store)
               = (Raise e', initial_state demo_store).
Proof.
  split; [exact I|]. split; [vm_compute; reflexivity|].
  apply (sample_loop_failure_aborts demo_inputs false "S1" ∅ [("S2", ∅)]
           (initial_state demo_store) (initial_state demo_store) AssertionError).
  - exact I.
  - vm_compute. reflexivity.
Defined.

(** On the demo workspace, the failed request for S1 makes the whole call
    raise [UnboundLocalError] before any update is issued for S2. *)
Lemma patch_attributes_demo_aborts :
  patch_attributes demo_inputs false "sample" demo_store = (Raise UnboundLocalError, demo_store, []).
Proof. vm_compute. reflexivity. Qed.

(** Without S1, the call does reach the update for S2 (an update that
    [update_entity_attributes] then rejects, being handed a dict). *)
Lemma patch_attributes_demo_s2_alone :
  (patch_attributes demo_inputs false "sample" demo_store_s2).2
    = [("sample", AttrDict [("col_a", "v2")])].
Proof. vm_compute. reflexivity. Qed.

(** *** Every update [patch_attributes] issues is rejected *)

(** A computation that keeps [metadata] a dict, never changes the store
    and issues at most one update call, with a dict, after which it
    raises. *)
Definition rejects_writes {A} (m : M A) : Prop :=
  forall st, metadata_dict st ->
    metadata_dict (m st).2 /\ st_store (m st).2 = st_store st /\
    exists new, st_writes (m st).2 = st_writes st ++ new /\
      Forall (fun w => exists d, w.2 = AttrDict d) new /\ (length new <= 1)%nat /\
      (new <> [] -> exists e, (m st).1 = Raise e).

(** No update was issued. *)
Ltac no_new :=
  exists []; split; [by rewrite app_nil_r|]; split; [constructor|];
  split; [cbn; lia|]; intros Hne; by destruct Hne.

Lemma rejects_ret {A} (a : A) : rejects_writes (mret a).
Proof. intros st H. split; [done|]. split; [done|]. no_new. Qed.

Lemma rejects_lift {A} (r : result A) : rejects_writes (lift r).
Proof. intros st H. split; [done|]. split; [done|]. no_new. Qed.

Lemma rejects_bind {A B} (m : M A) (k : A -> M B) :
  rejects_writes m -> (forall a, rejects_writes (k a)) -> rejects_writes (mbind' m k).
Proof.
  intros Hm Hk st H. unfold mbind'.
  destruct (Hm st H) as (Hmd & Hs & new & Hw & Hd & Hl & Hr).
  destruct (m st) as [[a|e] st']; cbn [fst snd] in *.
  - destruct new as [|w new]; [|by destruct (Hr ltac:(done)) as [? ?]].
    destruct (Hk a st' Hmd) as (Hmd' & Hs' & new' & Hw' & Hd' & Hl' & Hr').
    split; [done|]. split; [by rewrite Hs'|]. exists new'.
    rewrite Hw', Hw, app_nil_r. split; [done|]. split; [done|]. split; done.
  - split; [done|]. split; [done|]. exists new. split; [done|]. split; [done|].
    split; [done|]. intros _. by exists e.
Qed.

Lemma rejects_bind_lift {A B} (r : result A) (k : A -> M B) :
  (forall a, r = Ok a -> rejects_writes (k a)) -> rejects_writes (mbind' (lift r) k).
Proof.
  intros Hk st H. unfold mbind', lift. destruct r as [a|e]; cbn [fst snd].
  - by apply Hk.
  - split; [done|]. split; [done|]. no_new.
Qed.

Lemma rejects_try (m : M unit) : rejects_writes m -> rejects_writes (try_except m except_handler).
Proof.
  intros Hm st H. unfold try_except.
  destruct (Hm st H) as (Hmd & Hs & new & Hw & Hd & Hl & Hr).
  destruct (m st) as [[a|e] st'] eqn:E; cbn [fst snd] in *.
  - split; [done|]. split; [done|]. exists new. split; [done|]. split; [done|]. split; done.
  - destruct (except_handler_raises st' Hmd) as [e' He']. rewrite He'. cbn [fst snd].
    split; [done|]. split; [done|]. exists new. split; [done|]. split; [done|].
    split; [done|]. intros _. by exists e'.
Qed.

Lemma rejects_iter {A} (f : A -> M unit) (l : list A) :
  (forall a, rejects_writes (f a)) -> rejects_writes (m_iter f l).
Proof.
  intros Hf. induction l as [|x l IH]; cbn [m_iter]; [apply rejects_ret|].
  by apply rejects_bind.
Qed.

Lemma rejects_set_metadata (r : response metadata) v :
  get_workflow_metadata r = Ok v -> rejects_writes (set_metadata v).
Proof.
  intros Hv st H. split; [apply (metadata_dict_set r v Hv st H)|].
  split; [done|]. no_new.
Qed.

Lemma rejects_incr_count k : rejects_writes (incr_count k).
Proof. intros st H. split; [done|]. split; [done|]. no_new. Qed.

Lemma rejects_update_sample sid d : rejects_writes (update_sample_attributes sid (AttrDict d)).
Proof.
  intros st H. unfold update_sample_attributes. cbn. split; [done|]. split; [done|].
  exists [("sample", AttrDict d)]. split; [done|]. split; [repeat constructor; by eexists|].
  split; [cbn; lia|]. intros _. by eexists.
Qed.

Lemma rejects_update_sample_set sid d : rejects_writes (update_sample_set_attributes sid (AttrDict d)).
Proof.
  intros st H. unfold update_sample_set_attributes. cbn. split; [done|]. split; [done|].
  exists [("sample_set", AttrDict d)]. split; [done|]. split; [repeat constructor; by eexists|].
  split; [cbn; lia|]. intros _. by eexists.
Qed.

Create HintDb rejects.
#[local] Hint Resolve rejects_ret rejects_lift rejects_set_metadata rejects_incr_count
  rejects_update_sample rejects_update_sample_set : rejects.

(** Walk a computation built from the monad's combinators. *)
Ltac rej :=
  repeat (intros; cbn beta iota delta [negb]; match goal with
  | |- rejects_writes (mbind' (lift _) _) => apply rejects_bind_lift
  | |- rejects_writes (mbind' _ _) => apply rejects_bind
  | |- rejects_writes (m_iter _ _) => apply rejects_iter
  | |- rejects_writes (if ?b then _ else _) => destruct b
  | |- rejects_writes (match ?x with _ => _ end) => destruct x
  | _ => solve [eauto with rejects]
  end).

Lemma patch_sample_rejects inp dry_run sid row :
  rejects_writes (patch_sample inp dry_run sid row).
Proof. unfold patch_sample. rej. Qed.

Lemma sample_loop_rejects inp dry_run incomplete :
  rejects_writes (sample_loop inp dry_run incomplete).
Proof.
  induction incomplete as [|[sid row] rest IH]; cbn [sample_loop]; [apply rejects_ret|].
  apply rejects_bind; [|done]. apply rejects_try, patch_sample_rejects.
Qed.

Lemma patch_samples_rejects inp dry_run : rejects_writes (patch_samples inp dry_run).
Proof.
  intros st H. unfold patch_samples.
  destruct (incomplete_samples _ _) as [incomplete|e]; [|apply rejects_lift; done].
  destruct (forallb _ _); [|apply rejects_lift; done].
  destruct (sample_loop_rejects inp dry_run incomplete st H) as (Hmd & Hs & new & Hw & Hd & Hl & Hr).
  destruct (sample_loop inp dry_run incomplete st) as [[u|e] st']; cbn [fst snd] in *.
  - split; [done|]. split; [done|]. exists new. split; [done|]. split; [done|]. split; [done|].
    intros Hne. by destruct (Hr Hne).
  - split; [done|]. split; [done|]. exists new. split; [done|]. split; [done|].
    split; [done|]. intros _. by eexists.
Qed.

Lemma patch_sample_sets_rejects inp dry_run : rejects_writes (patch_sample_sets inp dry_run).
Proof.
  intros st H. unfold patch_sample_sets.
  destruct (negb _); [apply rejects_lift; done|].
  destruct (existsb _ _); [|apply rejects_ret; done].
  set (l := List.filter _ _). clearbody l.
  match goal with |- context [(?m st).2] => revert st H; change (rejects_writes m) end.
  rej.
Qed.

(** [patch_attributes], dry run or not, never changes the remote store:
    every update it issues passes a dict, which
    [update_entity_attributes] rejects with [ValueError('Unsupported
    input format.')]; it issues at most one, and the call then raises. *)
Theorem patch_attributes_updates_rejected (inp : inputs) (dry_run : bool) (entity : string) (s : store) :
  let '(r, s', w) := patch_attributes inp dry_run entity s in
  s' = s /\ (length w <= 1)%nat /\
  Forall (fun c => exists d, c.2 = AttrDict d /\
            forall ents, update_entity_attributes c.2 ents = Raise ValueError) w /\
  (w <> [] -> exists e, r = Raise e).
Proof.
  assert (Hr : rejects_writes (entity_run inp dry_run entity)).
  { unfold entity_run.
    destruct (String.eqb entity "sample"); [apply patch_samples_rejects|].
    destruct (String.eqb entity "sample_set"); [apply patch_sample_sets_rejects|].
    apply rejects_ret. }
  destruct (Hr (initial_state s) I) as (_ & Hs & new & Hw & Hd & Hl & Hraise).
  unfold patch_attributes.
  destruct (entity_run inp dry_run entity (initial_state s)) as [r st]. cbn [fst snd] in *.
  rewrite Hw. cbn [initial_state st_writes app]. split; [done|]. split; [done|]. split.
  - eapply Forall_impl; [exact Hd|]. intros c [d Hc]. exists d. split; [done|].
    intros ents. by rewrite Hc.
  - done.
Qed.

End PatchProofs.

Module SubmissionsProofs.
Import EntityStatus Submissions.

Lemma scan_agree api api' etype subs d :
  (forall s, s ∈ subs -> String.eqb (sub_entity_type s) etype = true ->
     api (sub_id s) = api' (sub_id s)) ->
  scan api etype subs d = scan api' etype subs d.
Proof.
  revert d. induction subs as [|s subs IH]; intros d H; cbn [scan]; [done|].
  assert (H' : forall s', s' ∈ subs -> String.eqb (sub_entity_type s') etype = true ->
                 api (sub_id s') = api' (sub_id s')).
  { intros s' Hs'. apply H. by right. }
  destruct (String.eqb (sub_entity_type s) etype) eqn:Ht; cbn [negb]; [|by apply IH].
  unfold get_submission. rewrite (H s) by (done || left).
  destruct (api' (sub_id s)); cbn [res_bind]; [by apply IH|done].
Qed.

Lemma fold_update_provenance s ws d e r :
  fold_left (update_entity s) ws d !! e = Some r ->
  d !! e = Some r \/ exists w, w ∈ ws /\ wf_entity w = e /\ r = new_record s w.
Proof.
  revert d. induction ws as [|w ws IH]; intros d H; cbn [fold_left] in H; [by left|].
  destruct (IH _ H) as [H1|(w' & Hw' & He & Hr)];
    [|right; exists w'; split; [by right|done]].
  assert (Hins : (<[wf_entity w := new_record s w]> d) !! e = Some r ->
                 d !! e = Some r \/ exists w0, w0 ∈ w :: ws /\ wf_entity w0 = e /\ r = new_record s w0).
  { intros Hi. destruct (decide (wf_entity w = e)) as [<-|Hne].
    - rewrite lookup_insert_eq in Hi. injection Hi as <-. right. exists w. split; [left|done].
    - rewrite lookup_insert_ne in Hi by done. by left. }
  unfold update_entity in H1.
  destruct (d !! wf_entity w) as [r0|]; [destruct (Z.ltb (rec_timestamp r0) (sub_date s))|].
  - by apply Hins.
  - by left.
  - by apply Hins.
Qed.

Lemma scan_provenance api etype subs d d' e r :
  scan api etype subs d = Ok d' -> d' !! e = Some r ->
  d !! e = Some r \/
  exists s ws w, s ∈ subs /\ sub_entity_type s = etype /\ api (sub_id s) = Some ws /\
    w ∈ ws /\ wf_entity w = e /\ r = new_record s w.
Proof.
  revert d. induction subs as [|s subs IH]; intros d Hscan Hd'; cbn [scan] in Hscan.
  - injection Hscan as ->. by left.
  - destruct (String.eqb (sub_entity_type s) etype) eqn:Ht; cbn [negb] in Hscan.
    + unfold get_submission in Hscan.
      destruct (api (sub_id s)) as [ws|] eqn:Hapi; cbn [res_bind] in Hscan; [|discriminate].
      destruct (IH _ Hscan Hd') as [H1|(s' & ws' & w' & Hs' & H2)].
      * apply fold_update_provenance in H1 as [H1|(w & Hw & He & Hr)]; [by left|].
        right. exists s, ws, w. apply String.eqb_eq in Ht. repeat split; try done. left.
      * right. exists s', ws', w'. split; [by right|done].
    + destruct (IH _ Hscan Hd') as [H1|(s' & ws' & w' & Hs' & H2)]; [by left|].
      right. exists s', ws', w'. split; [by right|done].
Qed.

(** Submissions of another entity type are skipped before their detail is
    requested: the result does not depend on the remote's answer for them. *)
Theorem get_entity_status_ignores_other_types api api' etype subs :
  (forall s, s ∈ subs -> String.eqb (sub_entity_type s) etype = true ->
     api (sub_id s) = api' (sub_id s)) ->
  get_entity_status api etype subs = get_entity_status api' etype subs.
Proof. intros H. unfold get_entity_status. by apply scan_agree. Qed.

Lemma get_entity_status_ignores_other_types_witness :
  get_entity_status demo_api "sample" demo_subs =
  get_entity_status (fun sid => if String.eqb sid "sub4"
                                then Some [mk_workflow "S9" "Succeeded" None]
                                else demo_api sid) "sample" demo_subs.
Proof.
  apply get_entity_status_ignores_other_types.
  intros s Hs Ht. apply list_elem_of_In in Hs.
  destruct Hs as [<-|[<-|[<-|[<-|[]]]]]; vm_compute in Ht |- *; congruence.
Defined.

(** The entities with a record are exactly those some type-matching
    submission's workflows refer to. *)
Theorem get_entity_status_domain api etype subs d e :
  get_entity_status api etype subs = Ok d ->
  (is_Some (d !! e) <-> exists s, s ∈ subs /\ references api etype e s = true).
Proof.
  intros H. pose proof (EntityStatusProofs.scan_ts _ _ _ _ _ e H) as Hts.
  unfold ts_of in Hts. rewrite lookup_empty in Hts. cbn [fmap option_fmap option_map] in Hts.
  split.
  - intros [r Hr]. rewrite Hr in Hts. cbn in Hts. symmetry in Hts.
    destruct (EntityStatusProofs.latest_ts_bound _ _ _ _ _ _ Hts) as (_ & _ & [Hc|(s & Hs & Hs2 & _)]);
      [discriminate|by exists s].
  - intros (s & Hs & Hr).
    destruct (EntityStatusProofs.latest_ts_some api etype e subs None s Hs Hr) as [t Ht].
    rewrite Ht in Hts. destruct (d !! e); [by eexists|discriminate].
Qed.

Lemma get_entity_status_domain_witness :
  is_Some (demo_status !! "S2") <->
  exists s, s ∈ demo_subs /\ references demo_api "sample" "S2" s = true.
Proof. apply get_entity_status_domain. vm_compute. reflexivity. Defined.

Lemma get_entity_status_provenance api etype subs d e r :
  get_entity_status api etype subs = Ok d -> d !! e = Some r ->
  exists s ws w, s ∈ subs /\ sub_entity_type s = etype /\ api (sub_id s) = Some ws /\
    w ∈ ws /\ wf_entity w = e /\ r = new_record s w.
Proof.
  intros H Hd. destruct (scan_provenance _ _ _ _ _ _ _ H Hd) as [H0|H0]; [|done].
  by rewrite lookup_empty in H0.
Qed.

(** Every record of the result is built from a single workflow entry of a
    single type-matching submission: its status and workflow id (or "NA")
    come from that entry, its timestamp, submission id and configuration
    from that submission. *)
Theorem get_entity_status_record_source api etype subs d e r :
  get_entity_status api etype subs = Ok d -> d !! e = Some r ->
  exists s ws w, s ∈ subs /\ sub_entity_type s = etype /\ api (sub_id s) = Some ws /\
    w ∈ ws /\ wf_entity w = e /\ r = new_record s w.
Proof. apply get_entity_status_provenance. Qed.

Lemma get_entity_status_record_source_witness :
  exists s ws w, s ∈ demo_subs /\ sub_entity_type s = "sample" /\ demo_api (sub_id s) = Some ws /\
    w ∈ ws /\ wf_entity w = "S2" /\ mk_status_record "Running" 200 "sub3" "wgs_pipeline" "NA" = new_record s w.
Proof.
  apply (get_entity_status_record_source demo_api "sample" demo_subs demo_status);
    vm_compute; reflexivity.
Defined.

(** With a configuration [c], [get_entity_status] keeps only submissions
    whose configuration name contains [c] as a substring: every record it
    returns has such a configuration and the id of a listed submission. *)
Theorem get_entity_status_config_substring listing api etype c d e r :
  get_entity_status_of listing api etype (Some c) = Ok d -> d !! e = Some r ->
  str_contains c (rec_configuration r) = true /\
  exists s, s ∈ resp_body listing /\ sub_id s = rec_submission_id r.
Proof.
  unfold get_entity_status_of, list_submissions, py_assert.
  destruct (Z.eqb (resp_status listing) 200); cbn [res_bind]; [|discriminate].
  intros H Hd. destruct (get_entity_status_provenance _ _ _ _ _ _ H Hd)
    as (s & ws & w & Hs & _ & _ & _ & _ & ->).
  apply list_elem_of_In, filter_In in Hs as [Hs Hc]. split; [exact Hc|].
  exists s. split; [by apply list_elem_of_In|done].
Qed.

Lemma get_entity_status_config_substring_witness :
  str_contains "wgs" (rec_configuration (mk_status_record "Succeeded" 200 "sub2" "wgs_pipeline" "wf2")) = true /\
  exists s, s ∈ demo_subs /\ sub_id s = "sub2".
Proof.
  apply (get_entity_status_config_substring (mk_response 200 demo_subs) demo_api "sample" "wgs"
           demo_status "S1"); vm_compute; reflexivity.
Defined.

End SubmissionsProofs.

Module EntitiesProofs.
Import Entities.

Lemma get_entities_query_ok {V} (api : entities_api V) etype p page_size :
  resp_status (api etype p page_size) = 200%Z ->
  get_entities_query api etype p page_size = Ok (resp_body (api etype p page_size)).
Proof. intros H. unfold get_entities_query, py_assert. by rewrite H. Qed.

Lemma more_pages_ok {V} (api : entities_api V) etype page_size ps all req :
  (forall p, p ∈ ps -> resp_status (api etype p page_size) = 200%Z) ->
  more_pages api etype page_size ps all req =
  (Ok (all ++ listed_entities api etype page_size ps), req ++ ps).
Proof.
  unfold listed_entities.
  revert all req. induction ps as [|p ps IH]; intros all req H; cbn [more_pages map concat].
  - by rewrite !app_nil_r.
  - rewrite get_entities_query_ok by (apply H; left).
    rewrite IH by (intros q Hq; apply H; by right).
    by rewrite <-!app_assoc.
Qed.

Lemma more_pages_raise {V} (api : entities_api V) etype page_size ps all req0 e req :
  more_pages api etype page_size ps all req0 = (Raise e, req) ->
  e = AssertionError /\
  exists pre p, req = req0 ++ pre ++ [p] /\ (pre ++ [p]) `prefix_of` ps /\
    resp_status (api etype p page_size) <> 200%Z /\
    (forall q, q ∈ pre -> resp_status (api etype q page_size) = 200%Z).
Proof.
  revert all req0. induction ps as [|p ps IH]; intros all req0 H; cbn [more_pages] in H.
  - discriminate.
  - unfold get_entities_query, py_assert in H.
    destruct (Z.eqb (resp_status (api etype p page_size)) 200) eqn:Hs; cbn [res_bind] in H.
    + destruct (IH _ _ H) as [-> (pre & p' & -> & Hpre & Hp' & Hq)]. split; [done|].
      exists (p :: pre), p'. split; [by rewrite <-app_assoc|]. split; [by apply prefix_cons|].
      split; [done|]. intros q Hq'. apply elem_of_cons in Hq' as [->|Hq'];
        [by apply Z.eqb_eq|by apply Hq].
    + injection H as <- <-. split; [done|]. exists [], p. split; [done|].
      split; [apply prefix_cons, prefix_nil|]. split; [by apply Z.eqb_neq|].
      intros q Hq. by apply elem_of_nil in Hq.
Qed.

Lemma entity_table_fold {V} (l : list (entity V)) (m : gmap string (gmap string V)) name :
  fold_left (fun m i => <[ent_name i := ent_attributes i]> m) l m !! name =
  match last (List.filter (fun i => String.eqb (ent_name i) name) l) with
  | Some i => Some (ent_attributes i)
  | None => m !! name
  end.
Proof.
  revert m. induction l as [|x l IH]; intros m; cbn [fold_left List.filter]; [done|].
  rewrite IH. destruct (String.eqb (ent_name x) name) eqn:Hx.
  - apply String.eqb_eq in Hx. rewrite last_cons.
    destruct (last _); [done|]. by rewrite Hx, lookup_insert_eq.
  - apply String.eqb_neq in Hx.
    destruct (last _); [done|]. by rewrite lookup_insert_ne.
Qed.

(** When every page answers 200, [get_entities] requests page 1 and then
    each page of [range(2,total_pages+1)] once, in order, and its table maps
    each name to the attributes of the last entity of that name listed on
    those pages (names listed nowhere are absent). *)
Theorem get_entities_all_pages {V} (api : entities_api V) etype page_size :
  (forall p, p ∈ listed_pages api etype page_size -> resp_status (api etype p page_size) = 200%Z) ->
  exists tbl, get_entities api etype page_size = (Ok tbl, listed_pages api etype page_size) /\
    forall name, tbl !! name =
      ent_attributes <$> last (List.filter (fun i => String.eqb (ent_name i) name)
                                 (listed_entities api etype page_size (listed_pages api etype page_size))).
Proof.
  intros H. unfold get_entities.
  rewrite get_entities_query_ok by (apply H; left).
  rewrite more_pages_ok by (intros q Hq; apply H; by right).
  eexists. split; [reflexivity|]. intros name.
  unfold entity_table. rewrite entity_table_fold, lookup_empty.
  by destruct (last _).
Qed.

Lemma get_entities_all_pages_witness :
  exists tbl, get_entities demo_api "sample" 100 = (Ok tbl, listed_pages demo_api "sample" 100) /\
    forall name, tbl !! name =
      ent_attributes <$> last (List.filter (fun i => String.eqb (ent_name i) name)
                                 (listed_entities demo_api "sample" 100 (listed_pages demo_api "sample" 100))).
Proof.
  apply get_entities_all_pages. intros p Hp. vm_compute in Hp.
  apply list_elem_of_In in Hp. destruct Hp as [<-|[<-|[]]]; reflexivity.
Defined.

(** A failing page stops [get_entities] with the [AssertionError] of
    [_get_entities_query]: the pages requested are a prefix of the pages to
    fetch, the last one requested answered with another status than 200
    and all earlier ones with 200. *)
Theorem get_entities_failure {V} (api : entities_api V) etype page_size e req :
  get_entities api etype page_size = (Raise e, req) ->
  e = AssertionError /\
  req `prefix_of` listed_pages api etype page_size /\
  exists pre p, req = pre ++ [p] /\
    resp_status (api etype p page_size) <> 200%Z /\
    (forall q, q ∈ pre -> resp_status (api etype q page_size) = 200%Z).
Proof.
  unfold get_entities, listed_pages, get_entities_query, py_assert.
  destruct (Z.eqb (resp_status (api etype 1%Z page_size)) 200) eqn:H1; cbn [res_bind].
  - destruct (more_pages _ _ _ _ _ _) as [[all|e'] requested] eqn:Hm; [discriminate|].
    intros Heq. injection Heq as <- <-.
    destruct (more_pages_raise _ _ _ _ _ _ _ _ Hm) as [-> (pre & p & -> & Hpre & Hp & Hq)].
    split; [done|]. split; [by apply prefix_cons|].
    exists (1%Z :: pre), p. split; [done|]. split; [done|].
    intros q Hq'. apply elem_of_cons in Hq' as [->|Hq']; [by apply Z.eqb_eq|by apply Hq].
  - intros Heq. injection Heq as <- <-. split; [done|].
    split; [apply prefix_cons, prefix_nil|].
    exists [], 1%Z. split; [done|]. split; [by apply Z.eqb_neq|].
    intros q Hq. by apply elem_of_nil in Hq.
Qed.

Lemma get_entities_failure_witness :
  AssertionError = AssertionError /\
  [1%Z; 2%Z; 3%Z] `prefix_of` listed_pages demo_api_broken "sample" 100 /\
  exists pre p, [1%Z; 2%Z; 3%Z] = pre ++ [p] /\
    resp_status (demo_api_broken "sample" p 100%Z) <> 200%Z /\
    (forall q, q ∈ pre -> resp_status (demo_api_broken "sample" q 100%Z) = 200%Z).
Proof. apply get_entities_failure. vm_compute. reflexivity. Defined.

Lemma fold_delete_lookup {V} (ks : list string) (m : gmap string V) k :
  fold_left (fun a k => delete k a) ks m !! k = if bool_decide (k ∈ ks) then None else m !! k.
Proof.
  revert m. induction ks as [|x ks IH]; intros m; cbn [fold_left].
  - case_bool_decide as Hk; [by apply elem_of_nil in Hk|done].
  - rewrite IH. case_bool_decide as Hk; case_bool_decide as Hk'; try done.
    + exfalso. apply Hk'. by right.
    + destruct (decide (x = k)) as [->|Hne]; [by rewrite lookup_delete_eq|].
      exfalso. apply elem_of_cons in Hk' as [->|Hk']; [done|contradiction].
    + rewrite lookup_delete_ne; [done|]. intros ->. apply Hk'. left.
Qed.

(** [get_attributes] drops exactly the workspace attributes whose key
    contains "library:" and keeps every other attribute unchanged. *)
Theorem get_attributes_lookup {V} (r : response (workspace_json V)) a k :
  get_attributes r = Ok a ->
  a !! k = if str_contains "library:" k then None else ws_attributes (resp_body r) !! k.
Proof.
  unfold get_attributes, py_assert.
  destruct (Z.eqb (resp_status r) 200); cbn [res_bind]; [|discriminate].
  intros Heq. injection Heq as <-. rewrite fold_delete_lookup.
  case_bool_decide as Hk.
  - apply list_elem_of_In, filter_In in Hk as [_ ->]. done.
  - destruct (str_contains "library:" k) eqn:Hc; [|done].
    destruct (ws_attributes (resp_body r) !! k) as [v|] eqn:Hv; [|done].
    exfalso. apply Hk, list_elem_of_In, filter_In. split; [|done].
    apply in_map_iff. exists (k, v). split; [done|].
    apply list_elem_of_In. by apply elem_of_map_to_list.
Qed.

Lemma get_attributes_lookup_witness :
  demo_workspace_attributes !! "library:published" =
  if str_contains "library:" "library:published" then None
  else ws_attributes (resp_body demo_workspace) !! "library:published".
Proof. apply get_attributes_lookup. vm_compute. reflexivity. Defined.

End EntitiesProofs.

Module SampleSetsProofs.
Import SampleSets.

(** The cells [get_sample_sets] writes into the row of a set [s]. *)
Definition set_cells (columns : list string) (s : sample_set_json) (m : gmap string cell)
  : gmap string cell :=
  fold_left (fun m c => match ss_attributes s !! c with
                        | Some v => <[c := to_cell v]> m
                        | None => m
                        end) columns m.

(** The cells of the row labelled [ss_name t] after the sets [l]. *)
Definition row_cells (columns : list string) (l : list sample_set_json) (t : sample_set_json)
    (m : gmap string cell) : gmap string cell :=
  fold_left (fun m s => if String.eqb (ss_name t) (ss_name s) then set_cells columns s m else m) l m.

Lemma inner_loop columns s (L : list sample_set_json) (h : sample_set_json -> gmap string cell) :
  fold_left (fun df c =>
    match ss_attributes s !! c with
    | Some v => loc_set (ss_name s) c (to_cell v) df
    | None => df
    end) columns (map (fun t => (ss_name t, h t)) L) =
  map (fun t => (ss_name t, if String.eqb (ss_name t) (ss_name s)
                            then set_cells columns s (h t) else h t)) L.
Proof.
  unfold set_cells. revert h.
  induction columns as [|c cols IH]; intros h; cbn [fold_left].
  - apply map_ext. intros t. by destruct (String.eqb _ _).
  - destruct (ss_attributes s !! c) as [v|] eqn:Hv.
    + assert (Hloc : loc_set (ss_name s) c (to_cell v) (map (fun t => (ss_name t, h t)) L) =
                     map (fun t => (ss_name t, if String.eqb (ss_name t) (ss_name s)
                                               then <[c := to_cell v]> (h t) else h t)) L).
      { unfold loc_set. rewrite map_map. apply map_ext. intros t. cbn [fst snd].
        by destruct (String.eqb _ _). }
      rewrite Hloc.
      rewrite (IH (fun t => if String.eqb (ss_name t) (ss_name s) then <[c := to_cell v]> (h t) else h t)).
      apply map_ext. intros t. destruct (String.eqb _ _); [|done].
      f_equal; by rewrite ?Hv.
    + rewrite IH. apply map_ext. intros t. destruct (String.eqb _ _); [|done].
      f_equal; by rewrite ?Hv.
Qed.

Lemma outer_loop columns (R L : list sample_set_json) (h : sample_set_json -> gmap string cell) :
  fold_left (fun df s =>
    fold_left (fun df c =>
      match ss_attributes s !! c with
      | Some v => loc_set (ss_name s) c (to_cell v) df
      | None => df
      end) columns df) R (map (fun t => (ss_name t, h t)) L) =
  map (fun t => (ss_name t, row_cells columns R t (h t))) L.
Proof.
  unfold row_cells. revert h. induction R as [|s R IH]; intros h; cbn [fold_left]; [done|].
  rewrite inner_loop, IH. apply map_ext. intros t. do 2 f_equal.
Qed.

Lemma row_cells_other columns l t m :
  (forall s, In s l -> ss_name s <> ss_name t) -> row_cells columns l t m = m.
Proof.
  unfold row_cells. revert m. induction l as [|s l IH]; intros m H; cbn [fold_left]; [done|].
  destruct (String.eqb (ss_name t) (ss_name s)) eqn:Hs.
  - apply String.eqb_eq in Hs. exfalso. apply (H s); [left|]; done.
  - apply IH. intros s' Hs'. apply H. by right.
Qed.

Lemma row_cells_unique columns l t m :
  NoDup (map ss_name l) -> In t l -> row_cells columns l t m = set_cells columns t m.
Proof.
  revert m. induction l as [|s l IH]; intros m Hnd Ht; [done|].
  cbn [map] in Hnd. apply NoDup_cons in Hnd as [Hn Hnd].
  destruct Ht as [<-|Ht].
  - unfold row_cells. cbn [fold_left]. rewrite String.eqb_refl. apply row_cells_other.
    intros s' Hs' He. apply Hn, list_elem_of_In, in_map_iff. by exists s'.
  - unfold row_cells. cbn [fold_left].
    destruct (String.eqb (ss_name t) (ss_name s)) eqn:Hs.
    + apply String.eqb_eq in Hs. exfalso. apply Hn, list_elem_of_In, in_map_iff.
      by exists t.
    + by apply IH.
Qed.

Lemma set_cells_notin columns t m c :
  ~ In c columns -> set_cells columns t m !! c = m !! c.
Proof.
  unfold set_cells. revert m. induction columns as [|x cols IH]; intros m Hc; cbn [fold_left]; [done|].
  rewrite IH by (intros H; apply Hc; by right).
  destruct (ss_attributes t !! x); [|done].
  rewrite lookup_insert_ne; [done|]. intros ->. apply Hc. by left.
Qed.

Lemma set_cells_in columns t m c :
  In c columns -> set_cells columns t m !! c =
  match ss_attributes t !! c with Some v => Some (to_cell v) | None => m !! c end.
Proof.
  revert m. induction columns as [|x cols IH]; intros m Hc; [done|].
  destruct (in_dec String.string_dec c cols) as [Hin|Hout].
  - unfold set_cells in *. cbn [fold_left]. rewrite IH by done.
    destruct (ss_attributes t !! c) eqn:Hv; [done|].
    destruct (ss_attributes t !! x) eqn:Hx; [|done].
    rewrite lookup_insert_ne; [done|]. intros ->. congruence.
  - destruct Hc as [->|Hc]; [|contradiction].
    unfold set_cells. cbn [fold_left]. change (set_cells cols t (match ss_attributes t !! c with Some v => <[c := to_cell v]> m | None => m end) !! c = match ss_attributes t !! c with Some v => Some (to_cell v) | None => m !! c end).
    rewrite set_cells_notin by done.
    destruct (ss_attributes t !! c); [by rewrite lookup_insert_eq|done].
Qed.

(** The table [get_sample_sets] builds: one row per set, labelled by its
    name; with distinct names the row of a set [t] holds [t]'s own
    attributes, converted by [to_cell]. *)
Lemma get_sample_sets_rows r df :
  get_sample_sets r = Ok df ->
  tbl_rows df = map (fun t => (ss_name t,
     row_cells (tbl_columns df) (resp_body r) t ∅)) (resp_body r) /\
  (forall c, In c (tbl_columns df) <->
     exists s, In s (resp_body r) /\ is_Some (ss_attributes s !! c)).
Proof.
  unfold get_sample_sets, py_assert.
  destruct (Z.eqb (resp_status r) 200); cbn [res_bind]; [|discriminate].
  intros Heq. injection Heq as <-. cbn [tbl_rows tbl_columns]. split.
  - rewrite map_map. apply outer_loop.
  - intros c. rewrite <-list_elem_of_In, elem_of_remove_dups, list_elem_of_In, in_flat_map.
    split.
    + intros (s & Hs & Hc). exists s. split; [done|].
      apply in_map_iff in Hc as ([k v] & <- & Hkv).
      apply list_elem_of_In, elem_of_map_to_list in Hkv. by exists v.
    + intros (s & Hs & [v Hv]). exists s. split; [done|].
      apply in_map_iff. exists (c, v). split; [done|].
      apply list_elem_of_In. by apply elem_of_map_to_list.
Qed.

Lemma samples_cell r df t :
  get_sample_sets r = Ok df -> NoDup (map ss_name (resp_body r)) ->
  In t (resp_body r) ->
  (exists s, In s (resp_body r) /\ is_Some (ss_attributes s !! "samples")) ->
  row_cells (tbl_columns df) (resp_body r) t ∅ !! "samples" = to_cell <$> ss_attributes t !! "samples".
Proof.
  intros Hdf Hnd Ht Hs. destruct (get_sample_sets_rows _ _ Hdf) as [_ Hcols].
  rewrite row_cells_unique by done. rewrite set_cells_in by (by apply Hcols).
  by destruct (ss_attributes t !! "samples").
Qed.

Lemma samples_column r df :
  get_sample_sets r = Ok df ->
  (exists s, In s (resp_body r) /\ is_Some (ss_attributes s !! "samples")) ->
  existsb (String.eqb "samples") (tbl_columns df) = true.
Proof.
  intros Hdf Hs. destruct (get_sample_sets_rows _ _ Hdf) as [_ Hcols].
  apply existsb_exists. exists "samples". split; [by apply Hcols|apply String.eqb_refl].
Qed.

Lemma zip_filter_map {A} (f : A -> string) (P : A -> bool) (L : list A) :
  map fst (List.filter snd (zip (map f L) (map P L))) = map f (List.filter P L).
Proof.
  induction L as [|x L IH]; [done|]. cbn [map zip List.filter snd].
  destruct (P x); cbn [map fst]; by rewrite IH.
Qed.

(** Looking a sample up in the table [get_sample_sets] builds: when the
    sets have distinct names and each lists its members in 'samples',
    [find_sample_set] returns the names of the sets listing the sample,
    in the order of the response. *)
Theorem find_sample_set_members r df sample_id :
  get_sample_sets r = Ok df ->
  resp_body r <> [] ->
  NoDup (map ss_name (resp_body r)) ->
  (forall s, s ∈ resp_body r -> exists items, ss_attributes s !! "samples" = Some (AttrItems items)) ->
  find_sample_set sample_id df =
  Ok (map ss_name (List.filter (fun s => existsb (String.eqb sample_id) (samples_members s))
                               (resp_body r))).
Proof.
  intros Hdf Hne Hnd Hall.
  assert (Hex : exists s, In s (resp_body r) /\ is_Some (ss_attributes s !! "samples")).
  { destruct (resp_body r) as [|s0 l]; [done|]. exists s0. split; [by left|].
    destruct (Hall s0) as [items Hi]; [left|]. by rewrite Hi. }
  unfold find_sample_set. rewrite (samples_column _ _ Hdf Hex). cbn [negb].
  destruct (get_sample_sets_rows _ _ Hdf) as [Hrows _]. rewrite Hrows.
  assert (Hmask : forall L, (forall t, In t L -> In t (resp_body r)) ->
    Stats.map_result (fun row => cell_contains sample_id (row.2 !! "samples"))
      (map (fun t => (ss_name t, row_cells (tbl_columns df) (resp_body r) t ∅)) L) =
    Ok (map (fun s => existsb (String.eqb sample_id) (samples_members s)) L)).
  { induction L as [|t L IH]; intros HL; [done|]. cbn [map Stats.map_result].
    rewrite IH by (intros t' Ht'; apply HL; by right). cbn [snd].
    rewrite (samples_cell r df t) by (done || (apply HL; by left)).
    destruct (Hall t) as [items Hi]; [apply list_elem_of_In, HL; by left|].
    unfold samples_members. rewrite Hi. reflexivity. }
  rewrite Hmask by done. cbn [res_bind]. rewrite map_map. cbn [fst].
  by rewrite zip_filter_map.
Qed.

Lemma find_sample_set_members_witness :
  find_sample_set "S2"
    (match get_sample_sets (mk_response 200 demo_sets) with Ok t => t | Raise _ => mk_table [] [] end) =
  Ok (map ss_name (List.filter (fun s => existsb (String.eqb "S2") (samples_members s)) demo_sets)).
Proof.
  apply (find_sample_set_members (mk_response 200 demo_sets)); cbn [resp_body].
  - vm_compute. reflexivity.
  - discriminate.
  - vm_compute. repeat constructor; set_solver.
  - intros s Hs. apply list_elem_of_In in Hs. destruct Hs as [<-|[<-|[]]]; eexists; reflexivity.
Defined.

(** When some set has a 'samples' attribute and another lacks it, its
    cell is NaN and [find_sample_set] stops with a TypeError, whatever
    the sample looked up. *)
Theorem find_sample_set_missing_samples r df sample_id t :
  get_sample_sets r = Ok df ->
  NoDup (map ss_name (resp_body r)) ->
  (exists s, s ∈ resp_body r /\ is_Some (ss_attributes s !! "samples")) ->
  t ∈ resp_body r -> ss_attributes t !! "samples" = None ->
  find_sample_set sample_id df = Raise TypeError.
Proof.
  intros Hdf Hnd [s [Hs Hss]] Ht Htn.
  apply list_elem_of_In in Hs, Ht.
  assert (Hex : exists s, In s (resp_body r) /\ is_Some (ss_attributes s !! "samples")) by eauto.
  unfold find_sample_set. rewrite (samples_column _ _ Hdf Hex). cbn [negb].
  destruct (get_sample_sets_rows _ _ Hdf) as [Hrows _]. rewrite Hrows.
  assert (Hraise : forall L, In t L ->
    Stats.map_result (fun row => cell_contains sample_id (row.2 !! "samples"))
      (map (fun t => (ss_name t, row_cells (tbl_columns df) (resp_body r) t ∅)) L) = Raise TypeError).
  { induction L as [|u L IH]; intros HL; [done|]. cbn [map Stats.map_result]. cbn [snd].
    destruct HL as [->|HL].
    - rewrite (samples_cell r df t), Htn by done. reflexivity.
    - destruct (cell_contains _ _) as [b|e] eqn:Hc; cbn [res_bind]; [by rewrite IH|].
      unfold cell_contains in Hc. f_equal. destruct (row_cells (tbl_columns df) (resp_body r) u ∅ !! "samples") as [[]|]; inversion Hc; reflexivity. }
  by rewrite Hraise.
Qed.

Lemma find_sample_set_missing_samples_witness :
  find_sample_set "S1"
    (match get_sample_sets (mk_response 200 demo_sets_missing) with
     | Ok t => t | Raise _ => mk_table [] [] end) = Raise TypeError.
Proof.
  apply (find_sample_set_missing_samples (mk_response 200 demo_sets_missing) _ _
           (mk_sample_set_json "SS2" (<["note" := AttrPlain "x"]> ∅))); cbn [resp_body].
  - vm_compute. reflexivity.
  - vm_compute. repeat constructor; set_solver.
  - exists (mk_sample_set_json "SS1" (<["samples" := AttrItems [ItemEntity "S1"; ItemEntity "S2"]]> ∅)).
    split; [left|]. vm_compute. by eexists.
  - right. right. left.
  - vm_compute. reflexivity.
Defined.

End SampleSetsProofs.

Module PairsProofs.
Import Pairs.








End PairsProofs.

Module DisplayProofs.
Import Display.

Definition is_str (c : cell) : bool :=
  match c with CStr _ => true | CInt _ => false end.

Lemma fill_rows_str api wt ix rows rows' :
  fill_rows api wt ix rows = Ok rows' ->
  (forall row, In row rows -> In row.1 (map sr_entity ix) \/ Forall (fun c => is_str c = true) row.2) ->
  forall row, In row rows' -> Forall (fun c => is_str c = true) row.2.
Proof.
  revert rows. induction ix as [|r ix IH]; intros rows Hf Hinv; cbn [fill_rows] in Hf.
  - injection Hf as <-. intros row Hrow. by destruct (Hinv row Hrow) as [[]|].
  - destruct (get_workflow_metadata _) as [v|]; cbn [res_bind] in Hf; [|discriminate].
    destruct (py_dict v) as [md|]; cbn [res_bind] in Hf; [|discriminate].
    destruct (Stats.map_result _ _) as [vals|]; cbn [res_bind] in Hf; [|discriminate].
    apply (IH _ Hf). intros row Hrow. unfold loc_set_row in Hrow.
    apply in_map_iff in Hrow as (row0 & Heq & Hrow0).
    destruct (String.eqb row0.1 (sr_entity r)) eqn:Hl.
    + subst row. right. cbn [snd]. apply Forall_forall. intros c Hc.
      apply list_elem_of_In, in_map_iff in Hc as (s & <- & _). done.
    + subst row. destruct (Hinv row0 Hrow0) as [[Heq|Hin]|Hs]; [|by left|by right].
      rewrite Heq, String.eqb_refl in Hl. discriminate.
Qed.

Lemma fill_rows_length api wt ix rows rows' :
  fill_rows api wt ix rows = Ok rows' -> length rows' = length rows.
Proof.
  revert rows. induction ix as [|r ix IH]; intros rows Hf; cbn [fill_rows] in Hf.
  - by injection Hf as <-.
  - destruct (get_workflow_metadata _) as [v|]; cbn [res_bind] in Hf; [|discriminate].
    destruct (py_dict v) as [md|]; cbn [res_bind] in Hf; [|discriminate].
    destruct (Stats.map_result _ _) as [vals|]; cbn [res_bind] in Hf; [|discriminate].
    rewrite (IH _ Hf). unfold loc_set_row. apply length_map.
Qed.

(** The shape of a successful [display_status]: the task columns then the
    two id columns, one row per entry of [ix], every task cell a string,
    and one value count per task column. *)
Lemma display_status_shape api status_df filter_active state summary :
  display_status api status_df filter_active = Ok (state, summary) ->
  exists cols rows (ix : list status_row),
    st_columns state = cols ++ ["workflow_id"; "submission_id"] /\
    st_rows state = zip_with (fun row r => (row.1, row.2 ++ [CStr (sr_workflow_id r); CStr (sr_submission_id r)]))
                             rows ix /\
    length rows = length ix /\
    (forall row, In row rows -> Forall (fun c => is_str c = true) row.2) /\
    summary = zip cols (map (fun k => value_counts (map (fun row => nth k row.2 (CInt 0)) rows))
                            (seq 0 (length cols))).
Proof.
  unfold display_status.
  destruct (py_head status_df) as [first|]; cbn [res_bind]; [|discriminate].
  destruct (get_workflow_metadata _) as [v0|]; cbn [res_bind]; [|discriminate].
  destruct (py_dict v0) as [md0|]; cbn [res_bind]; [|discriminate].
  destruct (fill_rows _ _ _ _) as [rows|] eqn:Hf; cbn [res_bind]; [|discriminate].
  destruct (Stats.map_result second_component _) as [cols|]; cbn [res_bind]; [|discriminate].
  case_bool_decide; cbn [res_bind]; [discriminate|].
  intros Heq. injection Heq as <- <-.
  eexists cols, rows, _. split; [reflexivity|]. split; [reflexivity|]. split.
  - rewrite (fill_rows_length _ _ _ _ _ Hf). apply length_map.
  - split; [|done]. apply (fill_rows_str _ _ _ _ _ Hf).
    intros row Hrow. left. apply in_map_iff in Hrow as (r & <- & Hr). cbn [fst].
    apply in_map_iff. by exists r.
Qed.

Lemma index_of_None x l : index_of x l = None -> ~ In x l.
Proof.
  induction l as [|y l IH]; intros H; cbn [index_of] in H; [by intros []|].
  destruct (String.eqb x y) eqn:Hxy; [discriminate|].
  apply String.eqb_neq in Hxy. intros [->|Hin]; [done|].
  destruct (index_of x l); [discriminate|]. by apply IH.
Qed.

Lemma value_counts_total (col : list cell) :
  list_sum (map snd (value_counts col)) = length col.
Proof.
  unfold value_counts.
  assert (Hcv : forall v acc, list_sum (map snd (count_value v acc)) = S (list_sum (map snd acc))).
  { intros v acc. induction acc as [|[w n] acc IH]; [done|]. cbn [count_value].
    destruct (cell_eqb v w); unfold list_sum in *; cbn [map snd fold_right] in *; lia. }
  assert (Hgen : forall acc, list_sum (map snd (fold_left (fun acc v => count_value v acc) col acc)) =
                             (length col + list_sum (map snd acc))%nat).
  { induction col as [|v col IH]; intros acc; [done|]. cbn [fold_left length].
    rewrite IH, Hcv. lia. }
  rewrite Hgen. cbn. lia.
Qed.

Lemma in_zip_r {A B} (a : A) (b : B) l1 l2 : In (a, b) (zip l1 l2) -> In b l2.
Proof.
  revert l2. induction l1 as [|x l1 IH]; intros [|y l2] H; cbn in H; try done.
  destruct H as [[= -> ->]|H]; [by left|right; by apply (IH l2)].
Qed.

(** After [display_status], no task cell of [state_df] is -1: every task
    cell holds a status string. So [get_stderr] on that table, for any
    task column, selects no row, fetches nothing and returns []. *)
Theorem get_stderr_after_display_status api status_df filter_active state summary fetch_stderr task_name :
  display_status api status_df filter_active = Ok (state, summary) ->
  NoDup (st_columns state) -> In task_name (st_columns state) ->
  get_stderr fetch_stderr state task_name = Ok [].
Proof.
  intros Hd _ Hin.
  destruct (display_status_shape _ _ _ _ _ Hd) as (cols & rows & ix & _ & Hrows & _ & Hstr & _).
  unfold get_stderr. destruct (index_of task_name (st_columns state)) as [k|] eqn:Hk;
    [|by apply index_of_None in Hk].
  assert (Hall : forall row, In row (st_rows state) -> Forall (fun c => is_str c = true) row.2).
  { intros row Hrow. rewrite Hrows in Hrow. apply list_elem_of_In in Hrow.
    apply elem_of_zip_with in Hrow as (row0 & r & -> & Hrow0 & _).
    apply list_elem_of_In, Hstr in Hrow0. cbn [snd]. apply Forall_app. split; [done|].
    repeat constructor. }
  assert (Hnone : List.filter (fun row => cell_eqb (nth k row.2 (CInt 0)) (CInt (-1))) (st_rows state) = []).
  { revert Hall. generalize (st_rows state) as l. induction l as [|row l IH]; intros Hall; [done|].
    cbn [List.filter]. rewrite IH by (intros row' Hr'; apply Hall; by right).
    destruct (nth_in_or_default k row.2 (CInt 0)) as [Hn|Hn].
    - pose proof (proj1 (Forall_forall _ _) (Hall row (or_introl eq_refl)) _
                                 (proj2 (list_elem_of_In _ _) Hn)) as Hs.
      by destruct (nth k row.2 (CInt 0)).
    - by rewrite Hn. }
  by rewrite Hnone.
Qed.

Lemma get_stderr_after_display_status_witness :
  get_stderr (fun _ => Ok "stderr") demo_display.1 "align" = Ok [].
Proof.
  apply (get_stderr_after_display_status demo_api demo_status_df false _ demo_display.2).
  - vm_compute. reflexivity.
  - vm_compute. repeat constructor; set_solver.
  - vm_compute. left. reflexivity.
Defined.

(** In the summary of [display_status], the counts of each task column add
    up to the number of rows of [state_df]: every row is counted once per
    column. *)
Theorem display_status_summary_total api status_df filter_active state summary c counts :
  display_status api status_df filter_active = Ok (state, summary) ->
  In (c, counts) summary ->
  list_sum (map snd counts) = length (st_rows state).
Proof.
  intros Hd Hin.
  destruct (display_status_shape _ _ _ _ _ Hd) as (cols & rows & ix & _ & Hrows & Hlen & _ & ->).
  apply in_zip_r, in_map_iff in Hin as (k & <- & _).
  rewrite value_counts_total, length_map, Hrows, length_zip_with_l_eq by done. done.
Qed.

Lemma display_status_summary_total_witness :
  list_sum (map snd (nth 0 demo_display.2 ("", [])).2) = length (st_rows demo_display.1).
Proof.
  apply (display_status_summary_total demo_api demo_status_df false demo_display.1 demo_display.2 (nth 0 demo_display.2 ("", [])).1).
  - vm_compute. reflexivity.
  - vm_compute. left. reflexivity.
Defined.

End DisplayProofs.

Module ParticipantsProofs.
Import Participants.

Lemma update_loop_ok upd df ks log0 log :
  update_loop upd df ks log0 = (Ok tt, log) ->
  log = log0 ++ map (fun k => (k, samples_of df k)) ks.
Proof.
  revert log0. induction ks as [|k ks IH]; intros log0 H; cbn [update_loop] in H.
  - injection H as <-. by rewrite app_nil_r.
  - destruct (Z.eqb _ 200); [|discriminate]. rewrite (IH _ H). by rewrite <-app_assoc.
Qed.

Lemma update_loop_raise upd df ks log0 e log :
  update_loop upd df ks log0 = (Raise e, log) ->
  e = AssertionError /\
  exists pre k, log = log0 ++ map (fun k => (k, samples_of df k)) (pre ++ [k]) /\
    (pre ++ [k]) `prefix_of` ks /\
    upd k (samples_of df k) <> 200%Z /\
    (forall k', In k' pre -> upd k' (samples_of df k') = 200%Z).
Proof.
  revert log0. induction ks as [|k ks IH]; intros log0 H; cbn [update_loop] in H; [discriminate|].
  destruct (Z.eqb (upd k (samples_of df k)) 200) eqn:Hk.
  - destruct (IH _ H) as [-> (pre & k' & -> & Hpre & Hk' & Hok)]. split; [done|].
    exists (k :: pre), k'. split; [by rewrite <-app_assoc|]. split; [by apply prefix_cons|].
    split; [done|]. intros k'' [<-|Hin]; [by apply Z.eqb_eq|by apply Hok].
  - injection H as <- <-. split; [done|]. exists [], k. split; [done|].
    split; [apply prefix_cons, prefix_nil|]. split; [by apply Z.eqb_neq|]. by intros ? [].
Qed.

Lemma np_unique_elem l k : In k (np_unique l) <-> In k l.
Proof.
  unfold np_unique. rewrite <-!list_elem_of_In, elem_of_remove_dups, !list_elem_of_In.
  pose proof (@merge_sort_Permutation _ str_le Participants.str_le_dec l) as Hp.
  split; [apply Permutation_in; done|apply Permutation_in; by symmetry].
Qed.

(** When every update succeeds, [update_participant_samples] sends one
    update per participant of the table, each participant once, listing
    exactly that participant's samples in table order. *)
Theorem update_participant_samples_ok update_entity df log :
  update_participant_samples update_entity df = (Ok tt, log) ->
  NoDup (map fst log) /\
  forall k items, In (k, items) log <-> In k (map snd df) /\ items = samples_of df k.
Proof.
  unfold update_participant_samples. intros H. apply update_loop_ok in H.
  cbn [app] in H. subst log. split.
  - rewrite map_map. cbn [fst]. rewrite map_id. apply NoDup_remove_dups.
  - intros k items. rewrite in_map_iff. split.
    + intros (k' & [= -> <-] & Hk'). split; [by apply np_unique_elem|done].
    + intros [Hk ->]. exists k. split; [done|]. by apply np_unique_elem.
Qed.

Lemma update_participant_samples_ok_witness :
  NoDup (map fst (update_participant_samples (fun _ _ => 200%Z) demo_df).2) /\
  forall k items, In (k, items) (update_participant_samples (fun _ _ => 200%Z) demo_df).2 <->
    In k (map snd demo_df) /\ items = samples_of demo_df k.
Proof. apply (update_participant_samples_ok (fun _ _ => 200%Z)). vm_compute. reflexivity. Defined.

(** A failed update stops [update_participant_samples] with an
    [AssertionError] after the updates of the participants before it (in
    [np.unique] order) were sent and accepted; nothing is undone and no
    later participant is updated. *)
Theorem update_participant_samples_failure update_entity df e log :
  update_participant_samples update_entity df = (Raise e, log) ->
  e = AssertionError /\
  exists pre k, log = map (fun k => (k, samples_of df k)) (pre ++ [k]) /\
    (pre ++ [k]) `prefix_of` np_unique (map snd df) /\
    update_entity k (samples_of df k) <> 200%Z /\
    (forall k', In k' pre -> update_entity k' (samples_of df k') = 200%Z).
Proof. unfold update_participant_samples. intros H. by apply update_loop_raise in H. Qed.

Lemma update_participant_samples_failure_witness :
  AssertionError = AssertionError /\
  exists pre k, [("P1", ["S1"]); ("P2", ["S3"; "S2"])] = map (fun k => (k, samples_of demo_df k)) (pre ++ [k]) /\
    (pre ++ [k]) `prefix_of` np_unique (map snd demo_df) /\
    (fun k _ => if String.eqb k "P2" then 500%Z else 200%Z) k (samples_of demo_df k) <> 200%Z /\
    (forall k', In k' pre -> (fun k _ => if String.eqb k "P2" then 500%Z else 200%Z) k' (samples_of demo_df k') = 200%Z).
Proof.
  apply (update_participant_samples_failure (fun k _ => if String.eqb k "P2" then 500%Z else 200%Z)).
  vm_compute. reflexivity.
Defined.

End ParticipantsProofs.

Module DeletesProofs.
Import Deletes.

(** [delete_sample_set_attributes] passes [self] a second time, so the
    bound method receives four positional arguments after [self] and
    always raises TypeError: no batch request is sent and no file is
    deleted. *)
Theorem delete_sample_set_attributes_type_error gs_delete batch_status sample_set_id attrs :
  delete_sample_set_attributes gs_delete batch_status sample_set_id attrs = (Raise TypeError, [], []).
Proof. reflexivity. Qed.

(** [delete_entity_attributes] on a Series sends one batch request with a
    RemoveAttribute entry per index label; files are handed to
    [gs_delete] only after that request answered 204 and with a truthy
    [delete_files]; any other answer is only printed, and the call returns
    normally. *)
Theorem delete_entity_attributes_effects gs_delete batch_status name items etype delete_files r batches deleted :
  delete_entity_attributes gs_delete batch_status (ArgSeries name items) etype delete_files =
    (r, batches, deleted) ->
  batches = [map (fun i => mk_batch_entry i etype name) (map fst items)] /\
  (deleted <> [] -> batch_status = 204%Z /\ truthy delete_files = Ok true /\ deleted = [map snd items]) /\
  (batch_status <> 204%Z -> r = Ok tt /\ deleted = []).
Proof.
  unfold delete_entity_attributes.
  destruct (Z.eqb batch_status 204) eqn:Hs.
  - apply Z.eqb_eq in Hs. destruct (truthy delete_files) as [[]|e] eqn:Ht;
      intros Heq; injection Heq as <- <- <-; repeat split; done.
  - apply Z.eqb_neq in Hs. intros Heq. injection Heq as <- <- <-. repeat split; done.
Qed.

Lemma delete_entity_attributes_effects_witness :
  [[mk_batch_entry "S1" (ArgStr "sample") "bam"; mk_batch_entry "S2" (ArgStr "sample") "bam"]] =
    [map (fun i => mk_batch_entry i (ArgStr "sample") "bam") (map fst [("S1", "gs://b/S1.bam"); ("S2", "gs://b/S2.bam")])] /\
  (([] : list (list string)) <> [] -> 500%Z = 204%Z /\ truthy (ArgBool true) = Ok true /\
     ([] : list (list string)) = [map snd [("S1", "gs://b/S1.bam"); ("S2", "gs://b/S2.bam")]]) /\
  (500%Z <> 204%Z -> (Ok tt : result unit) = Ok tt /\ ([] : list (list string)) = []).
Proof.
  apply (delete_entity_attributes_effects (fun _ => Ok tt) 500 "bam"
           [("S1", "gs://b/S1.bam"); ("S2", "gs://b/S2.bam")] (ArgStr "sample") (ArgBool true)).
  reflexivity.
Defined.

End DeletesProofs.

Module SetsProofs.
Import Sets.

(** [update_pair_set] looks the set up under the entity type
    'pair_set_id'; in a workspace with no entity of that type it never
    updates an existing pair set in place: whatever pair sets exist, it
    sends a single membership upload, and its outcome is that of the
    upload. *)
Theorem update_pair_set_always_uploads store upload_status pair_set_id pair_ids :
  (forall n, store !! ("pair_set_id", n) = None) ->
  update_pair_set store upload_status pair_set_id pair_ids =
  ((if Z.eqb upload_status 200 then Ok tt else Raise AssertionError),
   [UploadEntities ("membership:pair_set_id", "pair_id") (map (fun i => (pair_set_id, i)) pair_ids)]).
Proof.
  intros H. unfold update_pair_set, get_entity. rewrite H. reflexivity.
Qed.

Lemma update_pair_set_always_uploads_witness :
  update_pair_set demo_store 200 "PS1" ["P2"] =
  ((if Z.eqb 200 200 then Ok tt else Raise AssertionError),
   [UploadEntities ("membership:pair_set_id", "pair_id") (map (fun i => ("PS1", i)) ["P2"])]).
Proof.
  apply update_pair_set_always_uploads. intros n. unfold demo_store.
  rewrite !lookup_insert_ne; [apply lookup_empty | congruence | congruence].
Defined.

(** [update_sample_set] on an existing set that has a 'samples' attribute
    replaces its items by the given samples, keeping the attribute's
    items type, and sends nothing else; on a missing set it uploads a
    membership table instead. *)
Theorem update_sample_set_existing store upload_status sample_set_id sample_ids attrs items_dict :
  store !! ("sample_set", sample_set_id) = Some attrs ->
  attrs !! "samples" = Some items_dict ->
  update_sample_set store upload_status sample_set_id sample_ids =
  (Ok tt, [UpdateEntity "sample_set" sample_set_id "samples"
             (mk_items_attr (items_type items_dict) (map (fun i => (i, "sample")) sample_ids))]).
Proof.
  intros Hs Ha. unfold update_sample_set, get_entity. rewrite Hs. cbn. by rewrite Ha.
Qed.

Lemma update_sample_set_existing_witness :
  update_sample_set demo_store 500 "SS1" ["S1"; "S2"] =
  (Ok tt, [UpdateEntity "sample_set" "SS1" "samples"
             (mk_items_attr "EntityReference" (map (fun i => (i, "sample")) ["S1"; "S2"]))]).
Proof.
  apply (update_sample_set_existing demo_store 500 "SS1" ["S1"; "S2"]
           (<["samples" := mk_items_attr "EntityReference" [("S1", "sample")]]> ∅)
           (mk_items_attr "EntityReference" [("S1", "sample")])); reflexivity.
Defined.

End SetsProofs.
